(** * A shallow embedding of [skills_based.py] (skilltree)

    Numbers: the Python code computes with floats; the model computes with
    exact rationals [Q].  The floating-point functions of [math] that the code
    calls ([cos], [sin] of an angle in degrees, [atan2] in degrees, [hypot])
    are a record [float_math] that every trigonometric definition takes as a
    parameter; [pymath] below is one concrete rational stand-in for them.

    Randomness: the shared [random] module is an explicit generator state
    [rng] (a stream of draws in [0,1) and a cursor) threaded through a small
    state-and-exception monad [M]; Python exceptions are the [py_error]
    constructors. *)

From Stdlib Require Import QArith Qabs Qminmax Qround Lqa Lia ZArith List String Bool.
Import ListNotations.
Set Warnings "-register-all,-abstract-large-number".
Open Scope string_scope.
Open Scope Q_scope.

(* ------------------------------------------------------------------------ *)
(** ** Python numeric helpers *)

(** Python's [x % m] for a positive modulus: the result has the sign of [m]. *)
Definition pymod (x m : Q) : Q := x - m * inject_Z (Qfloor (x / m)).

Definition Qltb (x y : Q) : bool := negb (Qle_bool y x).
Definition Qeqb (x y : Q) : bool := Qeq_bool x y.

(** Python's two-argument [min] / [max] (the first of equal values). *)
Definition pymin (a b : Q) : Q := if Qltb b a then b else a.
Definition pymax (a b : Q) : Q := if Qltb a b then b else a.

Definition point : Type := (Q * Q)%type.

(* ------------------------------------------------------------------------ *)
(** ** Angle helpers (lines 38-57) *)

(** [def angle_difference(a, b)] *)
Definition angle_difference (a b : Q) : Q :=
  let diff := pymod (Qabs (a - b)) 360 in
  if Qltb 180 diff then 360 - diff else diff.

(** A Python [dict] with string keys, as an association list. *)
Fixpoint dict_get {A} (d : list (string * A)) (k : string) : option A :=
  match d with
  | [] => None
  | (k', v) :: d' => if String.eqb k k' then Some v else dict_get d' k
  end.

(** [direction_angles] of [is_arrow_pointing_direction]. *)
Definition direction_angles : list (string * Q) :=
  [("upward", 90); ("downward", 270); ("leftward", 180); ("rightward", 0)].

(* ------------------------------------------------------------------------ *)
(** ** Exceptions *)

Inductive py_error : Type :=
| ZeroDivisionError
| TypeError
| ValueError
| KeyError
| IndexError
| AttributeError
| RecursionError
| RaisedException (msg : string)
| UnboundLocalError
| LoopBound.

Inductive result (A : Type) : Type :=
| Ok (a : A)
| Err (e : py_error).
Arguments Ok {A} a.
Arguments Err {A} e.

(* ------------------------------------------------------------------------ *)
(** ** Segment intersection (nested in [demo_question_intersect_objects]) *)

Definition orientation (a b c : point) : nat :=
  let val := (snd b - snd a) * (fst c - fst b) - (fst b - fst a) * (snd c - snd b) in
  if Qltb (Qabs val) (1 # 1000000000) then 0%nat
  else if Qltb 0 val then 1%nat else 2%nat.

Definition on_segment (a b c : point) : bool :=
  Qle_bool (pymin (fst a) (fst c)) (fst b) && Qle_bool (fst b) (pymax (fst a) (fst c)) &&
  Qle_bool (pymin (snd a) (snd c)) (snd b) && Qle_bool (snd b) (pymax (snd a) (snd c)).

Definition _line_line_intersect (p1 p2 p3 p4 : point) : bool :=
  let o1 := orientation p1 p2 p3 in
  let o2 := orientation p1 p2 p4 in
  let o3 := orientation p3 p4 p1 in
  let o4 := orientation p3 p4 p2 in
  if negb (Nat.eqb o1 o2) && negb (Nat.eqb o3 o4) then true
  else if Nat.eqb o1 0 && on_segment p1 p3 p2 then true
  else if Nat.eqb o2 0 && on_segment p1 p4 p2 then true
  else if Nat.eqb o3 0 && on_segment p3 p1 p4 then true
  else if Nat.eqb o4 0 && on_segment p3 p2 p4 then true
  else false.

(* ------------------------------------------------------------------------ *)
(** ** The floating-point math library and the random source *)

(** [math.cos(math.radians(d))], [math.sin(math.radians(d))],
    [math.degrees(math.atan2(y, x))] and [math.hypot(x, y)]; angles in degrees
    (so [math.cos(rad + math.pi/2)] is [cosd (d + 90)]). *)
Record float_math : Type := {
  cosd : Q -> Q;
  sind : Q -> Q;
  atan2d : Q -> Q -> Q;
  hypot : Q -> Q -> Q
}.

(** The state of the shared generator: the draws [random.random()] returns,
    in order, and how many were consumed. *)
Record rng : Type := { draws : nat -> Q; cursor : nat }.

Definition M (A : Type) : Type := rng -> result (A * rng).

Definition ret {A} (a : A) : M A := fun r => Ok (a, r).
Definition raise {A} (e : py_error) : M A := fun _ => Err e.
Definition bind {A B} (m : M A) (k : A -> M B) : M B :=
  fun r => match m r with Ok (a, r') => k a r' | Err e => Err e end.

Notation "'let*' x ':=' m 'in' k" := (bind m (fun x => k))
  (at level 200, x name, m at level 100, k at level 200).
Notation "'let*' ' p ':=' m 'in' k" := (bind m (fun x => match x with p => k end))
  (at level 200, p pattern, m at level 100, k at level 200).

Definition lift {A} (x : result A) : M A :=
  match x with Ok a => ret a | Err e => raise e end.

Fixpoint mapM {A B} (f : A -> M B) (l : list A) : M (list B) :=
  match l with
  | [] => ret []
  | x :: l' => let* y := f x in let* ys := mapM f l' in ret (y :: ys)
  end.

(** [random.random()] *)
Definition random_random : M Q :=
  fun r => Ok (draws r (cursor r), {| draws := draws r; cursor := S (cursor r) |}).

(** [random.uniform(a, b)] is [a + (b - a) * random()]. *)
Definition uniform (a b : Q) : M Q :=
  let* u := random_random in ret (a + (b - a) * u).

(** [random.randint(a, b)] and [random.choice(seq)]: one draw picks among the
    candidates (the generator's own bit consumption is abstracted). *)
Definition randint (a b : Z) : M Z :=
  let* u := random_random in ret (a + Qfloor (u * inject_Z (b - a + 1)))%Z.

Definition choice {A} (seq : list A) : M A :=
  let* u := random_random in
  match nth_error seq (Z.to_nat (Qfloor (u * inject_Z (Z.of_nat (List.length seq))))) with
  | Some x => ret x
  | None => raise IndexError
  end.

(* ------------------------------------------------------------------------ *)
(** ** Shapes: [PlotObject] and its subclasses (lines 61-873)

    An object is its class with the class's attributes, the
    [_geometry_locked] flag (absent counts as [False]) and [sub_references].
    The named child attributes of the Python classes ([Axis.line],
    [Axis.ticks], [Bars.bars_list], [BarGraph.bars_obj], [axis_obj_x],
    [axis_obj_y]) always alias elements of [sub_references], so they are
    read from it: [line] is the first child of an Axis and [ticks] the rest,
    [bars_list] is the whole child list of a Bars, and a BarGraph's children
    are [bars_obj; axis_obj_x] followed by [axis_obj_y] when present.
    [obj_id] labels are not modelled: no operation here reads them. *)
Inductive attrs : Type :=
| LineA (p1 p2 : point)
| OvalA (center : point) (width height angle : Q)
| RectangleA (center : point) (width height angle : Q)
| TriangleA (vertices : list point)
| PolygonA (center : point) (sides : Z) (radius angle : Q)
| ArrowA (start : point) (length angle : Q)
| BarsA (num_bars : Z) (angle min_width max_width spacing min_height max_height : Q)
        (base_position : option point)
| AxisA (axis_length axis_angle min_tick_spacing max_tick_spacing
         min_tick_length max_tick_length : Q) (start_position : option point)
        (p1 p2 : point)
| BarGraphA (base_position : point) (axis_length : Q) (bars_num : Z) (bars_angle : Q)
            (with_y_axis : bool) (axis_margin : Q).

Inductive plot_object : Type :=
| Obj (a : attrs) (locked : bool) (sub_references : list plot_object).

Definition obj_attrs (o : plot_object) : attrs := let 'Obj a _ _ := o in a.
Definition obj_locked (o : plot_object) : bool := let 'Obj _ l _ := o in l.
Definition obj_subs (o : plot_object) : list plot_object := let 'Obj _ _ s := o in s.

(** The class [ALIAS]. *)
Definition ALIAS (o : plot_object) : string :=
  match obj_attrs o with
  | LineA _ _ => "Line" | OvalA _ _ _ _ => "Oval" | RectangleA _ _ _ _ => "Rectangle"
  | TriangleA _ => "Triangle" | PolygonA _ _ _ _ => "Polygon" | ArrowA _ _ _ => "Arrow"
  | BarsA _ _ _ _ _ _ _ _ => "Bars" | AxisA _ _ _ _ _ _ _ _ _ => "Axis"
  | BarGraphA _ _ _ _ _ _ => "BarGraph"
  end.

Definition is_line (o : plot_object) : bool :=
  match obj_attrs o with LineA _ _ => true | _ => false end.

(** [getattr(obj, "angle")]; the classes without an [angle] attribute raise
    [AttributeError]. *)
Definition get_angle (o : plot_object) : result Q :=
  match obj_attrs o with
  | OvalA _ _ _ ang | RectangleA _ _ _ ang | PolygonA _ _ _ ang | ArrowA _ _ ang
  | BarsA _ ang _ _ _ _ _ _ => Ok ang
  | _ => Err AttributeError
  end.

(** [def is_arrow_pointing_direction(arrow, target_direction, tol=5)]; an
    unknown direction is a [KeyError]. *)
Definition is_arrow_pointing_direction (arrow : plot_object) (target_direction : string)
    (tol : Q) : result bool :=
  match dict_get direction_angles target_direction with
  | None => Err KeyError
  | Some target_angle =>
      match get_angle arrow with
      | Ok a => Ok (Qle_bool (angle_difference a target_angle) tol)
      | Err e => Err e
      end
  end.

(** [LineLow()] and [LineLow(p1, p2)]. *)
Definition new_line : plot_object := Obj (LineA (0,0) (0,0)) false [].
Definition new_locked_line (p1 p2 : point) : plot_object := Obj (LineA p1 p2) true [].

(* ------------------------------------------------------------------------ *)
(** ** Bounding boxes: [get_bbox] (lines 122-140 and the overrides) *)

Definition bbox : Type := (Q * Q * Q * Q)%type.

Definition bx0 (b : bbox) : Q := let '(x, _, _, _) := b in x.
Definition by0 (b : bbox) : Q := let '(_, y, _, _) := b in y.
Definition bx1 (b : bbox) : Q := let '(_, _, x, _) := b in x.
Definition by1 (b : bbox) : Q := let '(_, _, _, y) := b in y.

(** [min(iterable)] and [max(iterable)]; empty is a [ValueError]. *)
Definition py_min_list (l : list Q) : result Q :=
  match l with [] => Err ValueError | x :: l' => Ok (fold_left pymin l' x) end.
Definition py_max_list (l : list Q) : result Q :=
  match l with [] => Err ValueError | x :: l' => Ok (fold_left pymax l' x) end.

(** [(min(b[0] for b in bboxes), min(b[1] ...), max(b[2] ...), max(b[3] ...))]
    for a non-empty [bboxes]. *)
Definition bbox_union (b : bbox) (bs : list bbox) : bbox :=
  (fold_left pymin (map bx0 bs) (bx0 b), fold_left pymin (map by0 bs) (by0 b),
   fold_left pymax (map bx1 bs) (bx1 b), fold_left pymax (map by1 bs) (by1 b)).

Definition segment_bbox (p1 p2 : point) : bbox :=
  (pymin (fst p1) (fst p2), pymin (snd p1) (snd p2),
   pymax (fst p1) (fst p2), pymax (snd p1) (snd p2)).

Definition rbind {A B} (x : result A) (k : A -> result B) : result B :=
  match x with Ok a => k a | Err e => Err e end.

Section WithMath.
Variable fm : float_math.

(** [360.0 / self.sides] *)
Definition angle_step (sides : Z) : result Q :=
  if Z.eqb sides 0 then Err ZeroDivisionError else Ok (360 / inject_Z sides).

(** [range(n)] *)
Definition py_range (n : Z) : list Z := map Z.of_nat (seq 0 (Z.to_nat n)).

(** The regular polygon's corner [i]. *)
Definition polygon_corner (center : point) (radius angle step : Q) (i : Z) : point :=
  let theta := angle + inject_Z i * step in
  (fst center + radius * cosd fm theta, snd center + radius * sind fm theta).

Fixpoint get_bbox (o : plot_object) : result bbox :=
  let 'Obj a _ subs := o in
  let line_bboxes := (fix go (l : list plot_object) : result (list bbox) :=
      match l with
      | [] => Ok []
      | c :: l' =>
          if is_line c then rbind (get_bbox c) (fun b => rbind (go l') (fun bs => Ok (b :: bs)))
          else go l'
      end) subs in
  let all_bboxes := (fix go (l : list plot_object) : result (list bbox) :=
      match l with
      | [] => Ok []
      | c :: l' => rbind (get_bbox c) (fun b => rbind (go l') (fun bs => Ok (b :: bs)))
      end) subs in
  match a with
  | LineA p1 p2 => Ok (segment_bbox p1 p2)
  | OvalA c w h _ => Ok (fst c - w / 2, snd c - h / 2, fst c + w / 2, snd c + h / 2)
  | RectangleA c w h _ =>
      rbind line_bboxes (fun bs => match bs with
        | b :: bs' => Ok (bbox_union b bs')
        | [] => Ok (fst c - w / 2, snd c - h / 2, fst c + w / 2, snd c + h / 2)
        end)
  | TriangleA vs =>
      rbind (py_min_list (map fst vs)) (fun x0 => rbind (py_min_list (map snd vs)) (fun y0 =>
      rbind (py_max_list (map fst vs)) (fun x1 => rbind (py_max_list (map snd vs)) (fun y1 =>
      Ok (x0, y0, x1, y1)))))
  | PolygonA c sides r ang =>
      rbind (angle_step sides) (fun step =>
      let corners := map (polygon_corner c r ang step) (py_range sides) in
      rbind (py_min_list (map fst corners)) (fun x0 => rbind (py_min_list (map snd corners)) (fun y0 =>
      rbind (py_max_list (map fst corners)) (fun x1 => rbind (py_max_list (map snd corners)) (fun y1 =>
      Ok (x0, y0, x1, y1))))))
  | ArrowA s len _ =>
      rbind line_bboxes (fun bs => match bs with
        | b :: bs' => Ok (bbox_union b bs')
        | [] => Ok (fst s, snd s, fst s + len, snd s + len)
        end)
  | BarsA _ _ _ _ _ _ _ _ | BarGraphA _ _ _ _ _ _ =>
      rbind all_bboxes (fun bs => match bs with
        | b :: bs' => Ok (bbox_union b bs')
        | [] => Ok (0, 0, 0, 0)
        end)
  | AxisA _ _ _ _ _ _ _ p1 p2 => Ok (segment_bbox p1 p2)
  end.

End WithMath.

(* ------------------------------------------------------------------------ *)
(** ** [apply_transformation] (lines 111-120)

    [func] is applied to the attributes [p1], [p2], [center], [base_position]
    that hold a 2-tuple, and to every element of [vertices]; then to every
    child.  An Arrow's [start] and an Axis's [start_position] are not in
    that list. *)
Definition transform_attrs (func : point -> point) (a : attrs) : attrs :=
  match a with
  | LineA p1 p2 => LineA (func p1) (func p2)
  | OvalA c w h ang => OvalA (func c) w h ang
  | RectangleA c w h ang => RectangleA (func c) w h ang
  | TriangleA vs => TriangleA (map func vs)
  | PolygonA c s r ang => PolygonA (func c) s r ang
  | ArrowA st len ang => ArrowA st len ang
  | BarsA n ang mnw mxw sp mnh mxh bp => BarsA n ang mnw mxw sp mnh mxh (option_map func bp)
  | AxisA l ang a b c d sp p1 p2 => AxisA l ang a b c d sp (func p1) (func p2)
  | BarGraphA bp l n ang y m => BarGraphA (func bp) l n ang y m
  end.

Fixpoint apply_transformation (func : point -> point) (o : plot_object) : plot_object :=
  let 'Obj a l subs := o in
  Obj (transform_attrs func a) l (map (apply_transformation func) subs).

(* ------------------------------------------------------------------------ *)
(** ** [adjust_scene] (lines 878-904); canvas is [(x_min, x_max, y_min, y_max)] *)

Definition py_div (x y : Q) : result Q :=
  if Qeqb y 0 then Err ZeroDivisionError else Ok (x / y).

Fixpoint map_result {A B} (f : A -> result B) (l : list A) : result (list B) :=
  match l with
  | [] => Ok []
  | x :: l' => rbind (f x) (fun y => rbind (map_result f l') (fun ys => Ok (y :: ys)))
  end.

Definition adjust_scene (fm : float_math) (scene : list plot_object) (canvas : bbox)
    : result (list plot_object) :=
  rbind (map_result (get_bbox fm) scene) (fun all_bboxes =>
  match all_bboxes with
  | [] => Ok scene
  | b :: bs =>
      let '(gmin_x, gmin_y, gmax_x, gmax_y) := bbox_union b bs in
      let scene_width := gmax_x - gmin_x in
      let scene_height := gmax_y - gmin_y in
      let '(cx_min, cx_max, cy_min, cy_max) := canvas in
      let canvas_width := cx_max - cx_min in
      let canvas_height := cy_max - cy_min in
      rbind (py_div canvas_width scene_width) (fun sx =>
      rbind (py_div canvas_height scene_height) (fun sy =>
      let scale := pymin (pymin sx sy) 1 in
      let new_scene_width := scale * scene_width in
      let new_scene_height := scale * scene_height in
      let desired_x_min := cx_min + (canvas_width - new_scene_width) / 2 in
      let desired_y_min := cy_min + (canvas_height - new_scene_height) / 2 in
      let transform (pt : point) : point :=
        (desired_x_min + scale * (fst pt - gmin_x), desired_y_min + scale * (snd pt - gmin_y)) in
      Ok (map (apply_transformation transform) scene)))
  end).

(* ------------------------------------------------------------------------ *)
(** ** Geometry assignment: [assign_geometry] of every class *)

(** Writes [p1], [p2] and [_geometry_locked = True] into the [k]-th Line
    child (counting Line children only) for which [seg k] is [Some]. *)
Fixpoint set_lines (seg : nat -> option (point * point)) (k : nat) (l : list plot_object)
    : list plot_object :=
  match l with
  | [] => []
  | c :: l' =>
      if is_line c then
        match seg k with
        | Some (p, q) => Obj (LineA p q) true (obj_subs c)
        | None => c
        end :: set_lines seg (S k) l'
      else c :: set_lines seg k l'
  end.

(** [len([ln for ln in self.sub_references if isinstance(ln, LineLow)])] *)
Definition count_lines (l : list plot_object) : nat := List.length (filter is_line l).

Definition vadd (p : point) (dx dy : Q) : point := (fst p + dx, snd p + dy).

Section Assign.
Variable fm : float_math.

(** [def rotate_point(pt, center, ang_deg)] *)
Definition rotate_point (pt center : point) (ang_deg : Q) : point :=
  let dx := fst pt - fst center in
  let dy := snd pt - snd center in
  (fst center + dx * cosd fm ang_deg - dy * sind fm ang_deg,
   snd center + dx * sind fm ang_deg + dy * cosd fm ang_deg).

(** The four corners of [RectangleObj.assign_geometry]. *)
Definition rectangle_corners (c : point) (w h ang : Q) : list point :=
  let hw := w / 2 in
  let hh := h / 2 in
  let corners := [(fst c - hw, snd c - hh); (fst c + hw, snd c - hh);
                  (fst c + hw, snd c + hh); (fst c - hw, snd c + hh)] in
  if negb (Qeqb ang 0) then map (fun p => rotate_point p c ang) corners else corners.

(** [RectangleObj.set_bottom_left(x, y, angle, width, height)] applied to a
    child of a Bars. *)
Definition rect_set_bottom_left (r : plot_object) (x y ang w h : Q) : plot_object :=
  let ox := w / 2 in
  let oy := h / 2 in
  let c := (x + ox * cosd fm ang - oy * sind fm ang, y + ox * sind fm ang + oy * cosd fm ang) in
  Obj (RectangleA c w h ang) true (obj_subs r).

(** The loop of [BarsObj.assign_geometry] over [bars_list]. *)
Fixpoint place_bars (mnw mxw mnh mxh ang dx dy cur_x cur_y : Q) (rects : list plot_object)
    : M (list plot_object) :=
  match rects with
  | [] => ret []
  | r :: rs =>
      let* w := uniform mnw mxw in
      let* h := uniform mnh mxh in
      let r' := rect_set_bottom_left r cur_x cur_y ang w h in
      let* rs' := place_bars mnw mxw mnh mxh ang dx dy (cur_x + dx) (cur_y + dy) rs in
      ret (r' :: rs')
  end.

(** The tick loop of [AxisObj.assign_geometry]; [fuel] bounds the number of
    iterations of the [while] loop. *)
Fixpoint axis_ticks (fuel : nat) (x1 y1 ang len mnts mxts mntl mxtl tick_start : Q)
    : M (list plot_object) :=
  if Qltb tick_start len then
    match fuel with
    | O => raise LoopBound
    | S fuel' =>
        let* spacing := uniform mnts mxts in
        if Qltb len (tick_start + spacing) then ret []
        else
          let tick_start := tick_start + spacing in
          let cx := x1 + tick_start * cosd fm ang in
          let cy := y1 + tick_start * sind fm ang in
          let* tick_len := uniform mntl mxtl in
          let half_t := tick_len / 2 in
          let rx := half_t * cosd fm (ang + 90) in
          let ry := half_t * sind fm (ang + 90) in
          let tick := new_locked_line (cx - rx, cy - ry) (cx + rx, cy + ry) in
          let* rest := axis_ticks fuel' x1 y1 ang len mnts mxts mntl mxtl tick_start in
          ret (tick :: rest)
    end
  else ret [].

Definition axis_loop_bound : nat := 10000.

Definition unlock (o : plot_object) : plot_object := Obj (obj_attrs o) false (obj_subs o).

(** [assign_geometry]; [depth] bounds the call depth as Python's recursion
    limit does.  Each case ends with [super().assign_geometry()], the loop
    over [sub_references]. *)
Fixpoint assign_geometry_rec (depth : nat) (o : plot_object) : M plot_object :=
  match depth with
  | O => raise RecursionError
  | S d =>
  let finish (a : attrs) (lk : bool) (subs : list plot_object) : M plot_object :=
    let* subs' := mapM (assign_geometry_rec d) subs in ret (Obj a lk subs') in
  let 'Obj a lk subs := o in
  match a with
  | LineA p1 p2 =>
      if lk then finish a lk subs else
      let* length := uniform 10 30 in
      let* angle := uniform 0 360 in
      let* cx := uniform 20 80 in
      let* cy := uniform 20 80 in
      let dx := (length / 2) * cosd fm angle in
      let dy := (length / 2) * sind fm angle in
      finish (LineA (cx - dx, cy - dy) (cx + dx, cy + dy)) lk subs
  | OvalA c w h ang =>
      if lk then finish a lk subs else
      let* cx := uniform 20 80 in
      let* cy := uniform 20 80 in
      let* w := uniform 10 30 in
      let* h := uniform 10 30 in
      let* ang := uniform 0 360 in
      finish (OvalA (cx, cy) w h ang) lk subs
  | RectangleA c w h ang =>
      let* '(c, w, h, ang) :=
        (if lk then ret (c, w, h, ang) else
         let* cx := uniform 30 70 in
         let* cy := uniform 30 70 in
         let* w := uniform 10 30 in
         let* h := uniform 10 30 in
         let* ang := uniform 0 180 in
         ret ((cx, cy), w, h, ang)) in
      let corners := rectangle_corners c w h ang in
      let subs := if Nat.eqb (count_lines subs) 4 then
          set_lines (fun i => if Nat.ltb i 4 then
                       Some (nth i corners (0,0), nth ((i + 1) mod 4) corners (0,0))
                     else None) 0 subs
        else subs in
      finish (RectangleA c w h ang) lk subs
  | TriangleA vs =>
      let* vs :=
        (if lk then ret vs else
         let* x1 := uniform 20 80 in
         let* y1 := uniform 20 80 in
         let* ox2 := uniform 10 30 in
         let* oy2 := uniform (-20) 20 in
         let* ox3 := uniform (-20) 20 in
         let* oy3 := uniform 10 30 in
         ret [(x1, y1); (x1 + ox2, y1 + oy2); (x1 + ox3, y1 + oy3)]) in
      let* subs :=
        (if Nat.eqb (count_lines subs) 3 then
           match vs with
           | [v0; v1; v2] =>
               let tri := [v0; v1; v2] in
               ret (set_lines (fun i => if Nat.ltb i 3 then
                         Some (nth i tri (0,0), nth ((i + 1) mod 3) tri (0,0))
                       else None) 0 subs)
           | _ => raise IndexError
           end
         else ret subs) in
      finish (TriangleA vs) lk subs
  | PolygonA c sides r ang =>
      let* '(c, sides, r, ang) :=
        (if lk then ret (c, sides, r, ang) else
         let* cx := uniform 30 70 in
         let* cy := uniform 30 70 in
         let* sides := randint 3 6 in
         let* r := uniform 10 20 in
         let* ang := uniform 0 180 in
         ret ((cx, cy), sides, r, ang)) in
      let* step := lift (angle_step sides) in
      let corner := polygon_corner fm c r ang step in
      let subs :=
        if Z.leb sides (Z.of_nat (count_lines subs)) then
          set_lines (fun k => let i := Z.of_nat k in
                       if Z.ltb i sides then Some (corner i, corner (Z.modulo (i + 1) sides))
                       else Some ((0,0), (0,0))) 0 subs
        else subs in
      finish (PolygonA c sides r ang) lk subs
  | ArrowA st len ang =>
      let* '(st, len, ang) :=
        (if lk then ret (st, len, ang) else
         let* sx := uniform 20 30 in
         let* sy := uniform 20 30 in
         let* len := uniform 20 40 in
         let* ang := uniform 0 180 in
         ret ((sx, sy), len, ang)) in
      let tip := vadd st (len * cosd fm ang) (len * sind fm ang) in
      let head_size := len * (2 # 10) in
      let left := vadd tip (head_size * cosd fm (ang + 180 - 30)) (head_size * sind fm (ang + 180 - 30)) in
      let right := vadd tip (head_size * cosd fm (ang + 180 + 30)) (head_size * sind fm (ang + 180 + 30)) in
      let subs := if Nat.eqb (count_lines subs) 3 then
          set_lines (fun i => match i with
                              | O => Some (st, tip) | S O => Some (tip, left)
                              | S (S O) => Some (tip, right) | _ => None end) 0 subs
        else subs in
      finish (ArrowA st len ang) lk subs
  | BarsA n ang mnw mxw sp mnh mxh bp =>
      if lk then finish a lk subs else
      let* '(bx, by_) := (match bp with Some p => ret p | None =>
                          let* bx := uniform 10 30 in let* by_ := uniform 50 80 in ret (bx, by_) end) in
      let dx := (mxw + sp) * cosd fm ang in
      let dy := (mxw + sp) * sind fm ang in
      let* subs := place_bars mnw mxw mnh mxh ang dx dy bx by_ subs in
      finish a true subs
  | AxisA len ang mnts mxts mntl mxtl stp _ _ =>
      if lk then finish a lk subs else
      let* '(x1, y1) := (match stp with Some p => ret p | None =>
                         let* x1 := uniform 10 20 in let* y1 := uniform 60 80 in ret (x1, y1) end) in
      let p1 := (x1, y1) in
      let p2 := (x1 + len * cosd fm ang, y1 + len * sind fm ang) in
      let subs := match subs with
                  | ln :: rest => Obj (LineA p1 p2) true (obj_subs ln) :: rest
                  | [] => [] end in
      let* ticks := axis_ticks axis_loop_bound x1 y1 ang len mnts mxts mntl mxtl 0 in
      finish (AxisA len ang mnts mxts mntl mxtl stp p1 p2) true (subs ++ ticks)%list
  | BarGraphA _ _ _ _ with_y _ =>
      if lk then finish a lk subs else
      match subs with
      | b :: ax :: rest =>
          let* ax' := assign_geometry_rec d (unlock ax) in
          let* rest' := (match rest with
                         | ay :: rest2 =>
                             if with_y then let* ay' := assign_geometry_rec d (unlock ay) in
                                            ret (ay' :: rest2)
                             else ret rest
                         | [] => ret [] end) in
          let* b' := assign_geometry_rec d (unlock b) in
          finish a true (b' :: ax' :: rest')
      | _ => finish a true subs
      end
  end
  end.

(** Python's default recursion limit. *)
Definition recursion_limit : nat := 1000.

Definition assign_geometry (o : plot_object) : M plot_object :=
  assign_geometry_rec recursion_limit o.

End Assign.

(* ------------------------------------------------------------------------ *)
(** ** Constructors called with keyword arguments *)

(** The values a plan passes as keyword arguments. *)
Inductive pyval : Type :=
| VNone
| VInt (z : Z)
| VFloat (q : Q)
| VBool (b : bool)
| VTuple (p : point)
| VList (ps : list point).

Definition kwargs : Type := list (string * pyval).

(** A keyword outside the signature is a [TypeError]. *)
Definition check_keys (allowed : list string) (kw : kwargs) : M unit :=
  if forallb (fun kv => existsb (String.eqb (fst kv)) allowed) kw then ret tt
  else raise TypeError.

(** Reading an argument that defaults to [None]; values the typed model
    cannot hold are reported as [TypeError]. *)
Definition arg_point (v : option pyval) : M (option point) :=
  match v with
  | None | Some VNone => ret None
  | Some (VTuple p) => ret (Some p)
  | _ => raise TypeError
  end.

Definition as_num (v : pyval) : M Q :=
  match v with
  | VInt z => ret (inject_Z z)
  | VFloat q => ret q
  | VBool b => ret (if b then 1 else 0)
  | _ => raise TypeError
  end.

Definition arg_num (v : option pyval) : M (option Q) :=
  match v with
  | None | Some VNone => ret None
  | Some v => let* q := as_num v in ret (Some q)
  end.

Definition arg_int (v : option pyval) : M (option Z) :=
  match v with
  | None | Some VNone => ret None
  | Some (VInt z) => ret (Some z)
  | Some (VBool b) => ret (Some (if b then 1 else 0)%Z)
  | _ => raise TypeError
  end.

(** An argument with a numeric default. *)
Definition arg_num_d (d : Q) (v : option pyval) : M Q :=
  match v with None => ret d | Some v => as_num v end.

(** Python truthiness. *)
Definition truthy (v : pyval) : bool :=
  match v with
  | VNone => false
  | VInt z => negb (Z.eqb z 0)
  | VFloat q => negb (Qeqb q 0)
  | VBool b => b
  | VTuple _ => true
  | VList ps => negb (Nat.eqb (List.length ps) 0)
  end.

Definition default_rectangle : plot_object :=
  Obj (RectangleA (0,0) 0 0 0) false (repeat new_line 4).

Definition LineLow (kw : kwargs) : M plot_object :=
  let* _ := check_keys ["p1"; "p2"] kw in
  let* p1 := arg_point (dict_get kw "p1") in
  let* p2 := arg_point (dict_get kw "p2") in
  match p1, p2 with
  | Some p1, Some p2 => ret (Obj (LineA p1 p2) true [])
  | _, _ => ret new_line
  end.

Definition OvalLow (kw : kwargs) : M plot_object :=
  let* _ := check_keys ["center"; "width"; "height"; "angle"] kw in
  let* c := arg_point (dict_get kw "center") in
  let* w := arg_num (dict_get kw "width") in
  let* h := arg_num (dict_get kw "height") in
  let* ang := arg_num (dict_get kw "angle") in
  match c, w, h, ang with
  | Some c, Some w, Some h, Some ang => ret (Obj (OvalA c w h ang) true [])
  | _, _, _, _ => ret (Obj (OvalA (0,0) 10 10 0) false [])
  end.

Definition RectangleObj (kw : kwargs) : M plot_object :=
  let* _ := check_keys ["center"; "width"; "height"; "angle"] kw in
  let* c := arg_point (dict_get kw "center") in
  let* w := arg_num (dict_get kw "width") in
  let* h := arg_num (dict_get kw "height") in
  let* ang := arg_num (dict_get kw "angle") in
  match c, w, h, ang with
  | Some c, Some w, Some h, Some ang => ret (Obj (RectangleA c w h ang) true (repeat new_line 4))
  | _, _, _, _ => ret default_rectangle
  end.

Definition TriangleObj (kw : kwargs) : M plot_object :=
  let* _ := check_keys ["vertices"] kw in
  let* vs := (match dict_get kw "vertices" with
              | None | Some VNone => ret None
              | Some (VList ps) => ret (Some ps)
              | Some _ => raise TypeError end) in
  match vs with
  | Some ps => if Nat.eqb (List.length ps) 3 then ret (Obj (TriangleA ps) true (repeat new_line 3))
               else ret (Obj (TriangleA [(0,0); (0,0); (0,0)]) false (repeat new_line 3))
  | None => ret (Obj (TriangleA [(0,0); (0,0); (0,0)]) false (repeat new_line 3))
  end.

Definition PolygonObj (kw : kwargs) : M plot_object :=
  let* _ := check_keys ["center"; "sides"; "radius"; "angle"] kw in
  let* c := arg_point (dict_get kw "center") in
  let* s := arg_int (dict_get kw "sides") in
  let* r := arg_num (dict_get kw "radius") in
  let* ang := arg_num (dict_get kw "angle") in
  match c, s, r, ang with
  | Some c, Some s, Some r, Some ang => ret (Obj (PolygonA c s r ang) true (repeat new_line 10))
  | _, _, _, _ => ret (Obj (PolygonA (0,0) 3 0 0) false (repeat new_line 10))
  end.

Definition ArrowObj (kw : kwargs) : M plot_object :=
  let* _ := check_keys ["start"; "length"; "angle"] kw in
  let* st := arg_point (dict_get kw "start") in
  let* len := arg_num (dict_get kw "length") in
  let* ang := arg_num (dict_get kw "angle") in
  match st, len, ang with
  | Some st, Some len, Some ang => ret (Obj (ArrowA st len ang) true (repeat new_line 3))
  | _, _, _ => ret (Obj (ArrowA (0,0) 0 0) false (repeat new_line 3))
  end.

Definition BarsObj (kw : kwargs) : M plot_object :=
  let* _ := check_keys ["num_bars"; "angle"; "min_width"; "max_width"; "spacing";
                        "min_height"; "max_height"; "base_position"] kw in
  let* nb := arg_int (dict_get kw "num_bars") in
  (* [num_bars if num_bars else random.randint(2, 5)] *)
  let* num_bars := (match nb with
                    | Some n => if Z.eqb n 0 then randint 2 5 else ret n
                    | None => randint 2 5 end) in
  let* ang := arg_num_d 30 (dict_get kw "angle") in
  let* mnw := arg_num_d 5 (dict_get kw "min_width") in
  let* mxw := arg_num_d 6 (dict_get kw "max_width") in
  let* sp := arg_num (dict_get kw "spacing") in
  let* spacing := (match sp with Some s => ret s | None => uniform 5 10 end) in
  let* mnh := arg_num_d 15 (dict_get kw "min_height") in
  let* mxh := arg_num_d 30 (dict_get kw "max_height") in
  let* bp := arg_point (dict_get kw "base_position") in
  ret (Obj (BarsA num_bars ang mnw mxw spacing mnh mxh bp) false
           (repeat default_rectangle (Z.to_nat num_bars))).

Definition new_axis (len ang mnts mxts mntl mxtl : Q) (stp : option point) : plot_object :=
  Obj (AxisA len ang mnts mxts mntl mxtl stp (0,0) (0,0)) false [new_line].

Definition AxisObj (kw : kwargs) : M plot_object :=
  let* _ := check_keys ["axis_length"; "axis_angle"; "min_tick_spacing"; "max_tick_spacing";
                        "min_tick_length"; "max_tick_length"; "start_position"] kw in
  let* len := arg_num_d 50 (dict_get kw "axis_length") in
  let* ang := arg_num_d 30 (dict_get kw "axis_angle") in
  let* mnts := arg_num_d 5 (dict_get kw "min_tick_spacing") in
  let* mxts := arg_num_d 10 (dict_get kw "max_tick_spacing") in
  let* mntl := arg_num_d 2 (dict_get kw "min_tick_length") in
  let* mxtl := arg_num_d 4 (dict_get kw "max_tick_length") in
  let* stp := arg_point (dict_get kw "start_position") in
  ret (new_axis len ang mnts mxts mntl mxtl stp).

Definition bargraph_keys : list string :=
  ["base_position"; "axis_length"; "bars_num"; "bars_angle"; "with_y_axis"; "axis_margin"].

Section WithMath2.
Variable fm : float_math.

(** [BarGraphObj(...)]; the keywords outside its own signature are passed on
    to [BarsObj] together with [num_bars], [angle] and [base_position]. *)
Definition BarGraphObj (kw : kwargs) : M plot_object :=
  let* bp := arg_point (dict_get kw "base_position") in
  let* base_position := (match bp with Some p => ret p | None =>
      let* x := uniform 10 30 in let* y := uniform 50 80 in ret (x, y) end) in
  let* al := arg_num (dict_get kw "axis_length") in
  let* axis_length := (match al with Some l => ret l | None => uniform 40 60 end) in
  let* bn := arg_int (dict_get kw "bars_num") in
  let* bars_num := (match bn with Some n => ret n | None => randint 2 5 end) in
  let* bars_angle := (match dict_get kw "bars_angle" with
                      | None => ret 0
                      | Some VNone => uniform 0 180
                      | Some v => as_num v end) in
  let with_y_axis := match dict_get kw "with_y_axis" with None => true | Some v => truthy v end in
  let* axis_margin := arg_num_d 0 (dict_get kw "axis_margin") in
  let rest := filter (fun kv => negb (existsb (String.eqb (fst kv)) bargraph_keys)) kw in
  let* _ := (if existsb (fun kv => existsb (String.eqb (fst kv)) ["num_bars"; "angle"; "base_position"]) rest
             then raise TypeError else ret tt) in
  let* bars_obj := BarsObj ([("num_bars", VInt bars_num); ("angle", VFloat bars_angle);
                             ("base_position", VTuple base_position)] ++ rest)%list in
  let ax_start := vadd base_position (axis_margin * cosd fm (bars_angle - 90))
                                     (axis_margin * sind fm (bars_angle - 90)) in
  let axis_obj_x := new_axis axis_length bars_angle 5 10 2 4 (Some ax_start) in
  let axis_obj_y := new_axis axis_length (pymod (bars_angle + 90) 360) 5 10 2 4 (Some ax_start) in
  ret (Obj (BarGraphA base_position axis_length bars_num bars_angle with_y_axis axis_margin) false
           (bars_obj :: axis_obj_x :: (if with_y_axis then [axis_obj_y] else []))).

(** [OBJECT_TYPES] (lines 912-922), in its insertion order. *)
Definition OBJECT_TYPES : list (string * (kwargs -> M plot_object)) :=
  [("Line", LineLow); ("Oval", OvalLow); ("Rectangle", RectangleObj); ("Bars", BarsObj);
   ("Axis", AxisObj); ("BarGraph", BarGraphObj); ("Triangle", TriangleObj);
   ("Polygon", PolygonObj); ("Arrow", ArrowObj)].

End WithMath2.

(* ------------------------------------------------------------------------ *)
(** ** [build_scene_from_plan] (lines 924-936) and [create_scene] (941-966) *)

(** A value of the plan dict: an [int], a [list] of keyword dicts, or
    anything else (ignored by the code). *)
Inductive plan_spec : Type :=
| SpecInt (n : Z)
| SpecList (params : list kwargs)
| SpecOther.

Definition plan : Type := list (string * plan_spec).

Section Scene.
Variable fm : float_math.

Fixpoint repeatM {A} (n : nat) (m : M A) : M (list A) :=
  match n with
  | O => ret []
  | S n' => let* x := m in let* xs := repeatM n' m in ret (x :: xs)
  end.

Fixpoint build_scene_from_plan (high_level_objects : plan) : M (list plot_object) :=
  match high_level_objects with
  | [] => ret []
  | (alias, spec) :: rest =>
      let* objs :=
        (match dict_get (OBJECT_TYPES fm) alias with
         | None => ret []          (* [continue] *)
         | Some cls_ =>
             match spec with
             | SpecInt n => repeatM (Z.to_nat n) (cls_ [])
             | SpecList ps => mapM cls_ ps
             | SpecOther => ret []
             end
         end) in
      let* others := build_scene_from_plan rest in
      ret (objs ++ others)%list
  end.

Definition min_total : nat := 3.
Definition max_total : nat := 6.

(** The first [while] loop of [create_scene]: it runs at most [min_total]
    times, so [fuel = min_total] is never exhausted. *)
Fixpoint pad_scene (fuel : nat) (available_types : list string) (scene : list plot_object)
    : M (list plot_object) :=
  match fuel with
  | O => ret scene
  | S fuel' =>
      if Nat.ltb (List.length scene) min_total && negb (Nat.eqb (List.length available_types) 0)
      then
        let* extra_type := choice available_types in
        match dict_get (OBJECT_TYPES fm) extra_type with
        | None => raise KeyError
        | Some cls_ => let* o := cls_ [] in pad_scene fuel' available_types (scene ++ [o])%list
        end
      else ret scene
  end.

(** The second [while] loop pops from the end until [max_total] remain. *)
Definition trim_scene (scene : list plot_object) : list plot_object := firstn max_total scene.

Definition available_types (avoid_types : list string) : list string :=
  filter (fun t => negb (existsb (String.eqb t) avoid_types)) (map fst (OBJECT_TYPES fm)).

(** The scene before geometry assignment. *)
Definition padded_scene (p : plan) (avoid_types : list string) : M (list plot_object) :=
  let* scene := build_scene_from_plan p in
  let* scene := pad_scene min_total (available_types avoid_types) scene in
  ret (trim_scene scene).

(** [create_scene(plan, avoid_types, canvas, allow_partial)];
    [perform_skills] only prints, so it is left out. *)
Definition create_scene (p : plan) (avoid_types : list string) (canvas : bbox)
    (allow_partial : bool) : M (list plot_object) :=
  let* scene := padded_scene p avoid_types in
  let* scene := mapM (assign_geometry fm) scene in
  if allow_partial then ret scene else lift (adjust_scene fm scene canvas).

End Scene.

(* ------------------------------------------------------------------------ *)
(** ** Constrained generation: the two retry loops (lines 1095-1221)

    [display_and_save_scene] renders and writes files; what it receives (the
    scene, the question and the answer) is what a run reports, so a run is
    modelled as returning that triple. *)

Definition saved_output : Type := (list plot_object * string * bool)%type.

Definition display_and_save_scene (scene : list plot_object) (question : string) (answer : bool)
    : M saved_output :=
  ret (scene, question, answer).

Definition canvas_of (width height : Q) : bbox := (0, width, 0, height).

(** [def get_line_length_and_angle(p1, p2)] *)
Definition get_line_length_and_angle (fm : float_math) (p1 p2 : point) : Q * Q :=
  let dx := fst p2 - fst p1 in
  let dy := snd p2 - snd p1 in
  (hypot fm dx dy, pymod (atan2d fm dy dx) 360).








Section Demos.
Variable fm : float_math.














End Demos.

(* ------------------------------------------------------------------------ *)
(** ** A concrete stand-in for the floating-point math library

    Results are rounded to a grid of [10^-18], as a float rounds; cosine
    and arctangent are summed from their series after range reduction,
    the square root by Newton's iteration. *)

Definition grid : positive := Pos.pow 10 18.
Definition fround (q : Q) : Q := Qmake (Qfloor (q * inject_Z (Zpos grid))) grid.
Definition pi_q : Q := Qmake 3141592653589793238 grid.

(** [sum_{k < n} (-1)^k x^(2k) / (2k)!] *)
Fixpoint cos_series (n : nat) (k : nat) (x2 term acc : Q) : Q :=
  match n with
  | O => acc
  | S n' =>
      let kk := inject_Z (Z.of_nat k) in
      let term' := fround (- term * x2 / ((2 * kk + 1) * (2 * kk + 2))) in
      cos_series n' (S k) x2 term' (acc + term')
  end.

Definition pymath_cosd (d : Q) : Q :=
  let r := pymod (d + 180) 360 - 180 in
  let x := fround (r * pi_q / 180) in
  fround (cos_series 16 0 (fround (x * x)) 1 1).

Definition pymath_sind (d : Q) : Q := pymath_cosd (d - 90).

(** Euler's series [atan t = sum a_n], [a_0 = t / (1 + t^2)],
    [a_(n+1) = a_n * (2n + 2) / (2n + 3) * t^2 / (1 + t^2)]. *)
Fixpoint atan_series (n : nat) (k : nat) (r term acc : Q) : Q :=
  match n with
  | O => acc
  | S n' =>
      let kk := inject_Z (Z.of_nat k) in
      let term' := fround (term * (2 * kk + 2) / (2 * kk + 3) * r) in
      atan_series n' (S k) r term' (acc + term')
  end.

Definition atan_deg_unit (t : Q) : Q :=
  let a0 := fround (t / (1 + t * t)) in
  fround (atan_series 70 0 (fround (t * t / (1 + t * t))) a0 a0 * 180 / pi_q).

Definition pymath_atan2d (y0 x0 : Q) : Q :=
  let y := fround y0 in
  let x := fround x0 in
  if Qeqb x 0 && Qeqb y 0 then 0
  else if Qle_bool (Qabs y) (Qabs x) then
    let a := atan_deg_unit (y / x) in
    if Qltb 0 x then a else if Qle_bool 0 y then a + 180 else a - 180
  else
    let b := atan_deg_unit (x / y) in
    if Qltb 0 y then 90 - b else -90 - b.

Fixpoint newton_sqrt (n : nat) (s g : Q) : Q :=
  match n with O => g | S n' => newton_sqrt n' s (fround ((g + s / g) / 2)) end.

Definition pymath_hypot (x0 y0 : Q) : Q :=
  let x := fround x0 in
  let y := fround y0 in
  let s := fround (x * x + y * y) in
  if Qeqb s 0 then 0 else newton_sqrt 60 s (Qabs x + Qabs y).

Definition pymath : float_math :=
  {| cosd := pymath_cosd; sind := pymath_sind; atan2d := pymath_atan2d; hypot := pymath_hypot |}.

(** A generator whose draws are [l], then [1/2]. *)
Definition rng_of_list (l : list Q) : rng :=
  {| draws := fun n => nth n l (1 # 2); cursor := 0 |}.

(* ------------------------------------------------------------------------ *)
(** ** Object ids: [UniqueIDGenerator] (lines 17-26) *)

(** The class-wide [counters] dict. *)
Definition id_counters : Type := list (string * nat).

(** [d[k] = v] on a dict: an existing key keeps its place, a new one goes last. *)
Fixpoint dict_set {A} (d : list (string * A)) (k : string) (v : A) : list (string * A) :=
  match d with
  | [] => [(k, v)]
  | (k', v') :: d' => if String.eqb k k' then (k', v) :: d' else (k', v') :: dict_set d' k v
  end.

(** [get_unique_id(alias)]: the id and the counters after the call. *)
Definition get_unique_id (alias : string) (counters : id_counters) : nat * id_counters :=
  let counters := match dict_get counters alias with
                  | None => dict_set counters alias 0%nat
                  | Some _ => counters
                  end in
  let this_id := match dict_get counters alias with Some n => n | None => 0%nat end in
  (this_id, dict_set counters alias (S this_id)).

(** [n] objects of one class created in a row. *)
Fixpoint get_unique_ids (n : nat) (alias : string) (counters : id_counters)
    : list nat * id_counters :=
  match n with
  | O => ([], counters)
  | S n' =>
      let '(i, c) := get_unique_id alias counters in
      let '(is, c') := get_unique_ids n' alias c in
      (i :: is, c')
  end.

(* ------------------------------------------------------------------------ *)
(** ** [are_lines_parallel] and [are_lines_perpendicular] (lines 49-57) *)

(** [line.p1], [line.p2]: a Line's or an Axis's endpoints; the other classes
    have no [p1] and raise [AttributeError]. *)
Definition line_points (o : plot_object) : result (point * point) :=
  match obj_attrs o with
  | LineA p q => Ok (p, q)
  | AxisA _ _ _ _ _ _ _ p q => Ok (p, q)
  | _ => Err AttributeError
  end.

Definition are_lines_parallel (fm : float_math) (line1 line2 : plot_object) (tol : Q)
    : result bool :=
  rbind (line_points line1) (fun '(p1, p2) =>
  let a1 := snd (get_line_length_and_angle fm p1 p2) in
  rbind (line_points line2) (fun '(q1, q2) =>
  let a2 := snd (get_line_length_and_angle fm q1 q2) in
  Ok (Qle_bool (angle_difference a1 a2) tol))).

Definition are_lines_perpendicular (fm : float_math) (line1 line2 : plot_object) (tol : Q)
    : result bool :=
  rbind (line_points line1) (fun '(p1, p2) =>
  let a1 := snd (get_line_length_and_angle fm p1 p2) in
  rbind (line_points line2) (fun '(q1, q2) =>
  let a2 := snd (get_line_length_and_angle fm q1 q2) in
  Ok (Qle_bool (Qabs (angle_difference a1 a2 - 90)) tol))).

(* ------------------------------------------------------------------------ *)
(** ** [demo_question_object] (lines 1021-1035) *)

Section ObjectDemo.
Variable fm : float_math.

Definition object_check_msg (obj_type : string) : string :=
  ("Error: " ++ obj_type ++ " instance found when answer should be false.")%string.

Definition demo_question_object (answer : bool) (width height : Q) : M saved_output :=
  let canvas := canvas_of width height in
  let* obj_type := choice ["Line"; "Oval"; "Rectangle"; "Triangle"; "Arrow"] in
  let* pl := (if answer then let* n := randint 1 2 in ret [(obj_type, SpecInt n)]
              else ret [(obj_type, SpecInt 0)]) in
  let* scene := create_scene fm pl (if answer then [] else [obj_type]) canvas false in
  let* _ := (if answer then ret tt
             else if existsb (fun o => String.eqb (ALIAS o) obj_type) scene
                  then raise (RaisedException (object_check_msg obj_type))
                  else ret tt) in
  let question_text := ("Is there a " ++ obj_type ++ " in the image?")%string in
  display_and_save_scene scene question_text answer.

(** [run_scene_demo(plan, ...)] *)
Definition run_scene_demo (p : plan) (allow_partial : bool) (question : string) (answer : bool)
    (avoid_types : list string) (canvas : bbox) : M saved_output :=
  let* scene := create_scene fm p avoid_types canvas allow_partial in
  display_and_save_scene scene question answer.

End ObjectDemo.

(* ------------------------------------------------------------------------ *)
(** ** [_point_in_polygon] (nested in [demo_question_intersect_objects]) *)

(** The [for i in range(n)] loop: [prev] is [vertices[j]]; the division is
    only evaluated when the edge straddles the horizontal through [py]. *)
Fixpoint pip_loop (px py : Q) (prev : point) (vs : list point) (inside : bool) : result bool :=
  match vs with
  | [] => Ok inside
  | (xi, yi) :: vs' =>
      let '(xj, yj) := prev in
      if xorb (Qltb py yi) (Qltb py yj) then
        rbind (py_div ((xj - xi) * (py - yi)) (yj - yi + (1 # 1000000000))) (fun t =>
        pip_loop px py (xi, yi) vs' (if Qltb px (t + xi) then negb inside else inside))
      else pip_loop px py (xi, yi) vs' inside
  end.

(** [_point_in_polygon(px, py, {"vertices": vertices})]: [j] starts at the
    last vertex. *)
Definition _point_in_polygon (px py : Q) (vertices : list point) : result bool :=
  match vertices with
  | [] => Ok false
  | _ => pip_loop px py (last vertices (0, 0)) vertices false
  end.

(* ------------------------------------------------------------------------ *)
(** ** Predicates used to state properties *)

(** A Line with no children, as [LineLow(p1, p2)] builds it. *)
Definition is_bare_line (o : plot_object) : bool :=
  match o with Obj (LineA _ _) _ [] => true | _ => false end.

(** The widths, heights and lengths a bounding box is computed from are not
    negative (in the object and all its children). *)
Fixpoint dims_nonneg (o : plot_object) : bool :=
  let 'Obj a _ subs := o in
  match a with
  | OvalA _ w h _ | RectangleA _ w h _ => Qle_bool 0 w && Qle_bool 0 h
  | ArrowA _ len _ => Qle_bool 0 len
  | _ => true
  end &&
  (fix go (l : list plot_object) : bool :=
     match l with [] => true | c :: l' => dims_nonneg c && go l' end) subs.

(** The bounding box [b] lies in the canvas [(x_min, x_max, y_min, y_max)]. *)
Definition bbox_inside (b : bbox) (canvas : bbox) : Prop :=
  let '(cx0, cx1, cy0, cy1) := canvas in
  cx0 <= bx0 b /\ bx1 b <= cx1 /\ cy0 <= by0 b /\ by1 b <= cy1.

(** How many objects an entry of a plan asks for: [range(n)] is empty for
    [n <= 0]. *)
Definition plan_entry_count (spec : plan_spec) : nat :=
  match spec with
  | SpecInt n => Z.to_nat n
  | SpecList ps => List.length ps
  | SpecOther => 0%nat
  end.

(** The kinds of the objects a plan asks for, entry by entry; entries with an
    unknown alias ask for none. *)
Definition planned_aliases (fm : float_math) (p : plan) : list string :=
  flat_map (fun e => match dict_get (OBJECT_TYPES fm) (fst e) with
                     | None => []
                     | Some _ => repeat (fst e) (plan_entry_count (snd e))
                     end) p.

(** Every draw of the generator lies in [[0, 1)], as [random.random()]'s do. *)
Definition draws_in_unit (r : rng) : Prop := forall k, 0 <= draws r k /\ draws r k < 1.

(** Objects of the classes [aliases] created one after the other: the ids
    [get_unique_id] hands out, and the counters after the last one. *)
Fixpoint assign_ids (aliases : list string) (counters : id_counters) : list nat * id_counters :=
  match aliases with
  | [] => ([], counters)
  | a :: rest =>
      let '(i, c) := get_unique_id a counters in
      let '(is, c') := assign_ids rest c in
      (i :: is, c')
  end.

(** The id the next object of class [a] gets. *)
Definition id_start (c : id_counters) (a : string) : nat :=
  match dict_get c a with Some n => n | None => 0%nat end.

(** A bounding box whose minimum is not above its maximum on either axis. *)
Definition ordered (b : bbox) : Prop := bx0 b <= bx1 b /\ by0 b <= by1 b.

(** [o] is a bare Line and [b] the box of its two endpoints. *)
Definition bare_line_bbox (o : plot_object) (b : bbox) : Prop :=
  exists p q l, o = Obj (LineA p q) l [] /\ b = segment_bbox p q.

(** How [orientation] changes when its first two points are swapped. *)
Definition swap12 (k : nat) : nat :=
  match k with 1%nat => 2%nat | 2%nat => 1%nat | _ => k end.

(** The kinds [demo_question_object] chooses from. *)
Definition question_object_types : list string := ["Line"; "Oval"; "Rectangle"; "Triangle"; "Arrow"].

(* ------------------------------------------------------------------------ *)
(** ** Reference definitions written from the specification

    These are not embeddings of the source: each one states a property in
    the specification's own terms, to be compared with the embedded code. *)

(** The canonical angle of a direction as the specification lists it. *)
Definition spec_direction_angle (d : string) : option Q :=
  if String.eqb d "upward" then Some 90
  else if String.eqb d "downward" then Some 270
  else if String.eqb d "leftward" then Some 180
  else if String.eqb d "rightward" then Some 0
  else None.

(** Forgets the point-valued fields [p1], [p2], [center], [base_position]
    and the elements of [vertices] (each replaced by the origin), and keeps
    every other field, the lock flag and the tree of children. *)
Definition erase_attrs (a : attrs) : attrs :=
  let z : point := (0, 0) in
  match a with
  | LineA _ _ => LineA z z
  | OvalA _ w h ang => OvalA z w h ang
  | RectangleA _ w h ang => RectangleA z w h ang
  | TriangleA vs => TriangleA (map (fun _ => z) vs)
  | PolygonA _ s r ang => PolygonA z s r ang
  | ArrowA st len ang => ArrowA st len ang
  | BarsA n ang mnw mxw sp mnh mxh bp =>
      BarsA n ang mnw mxw sp mnh mxh (match bp with Some _ => Some z | None => None end)
  | AxisA l ang a b c d sp _ _ => AxisA l ang a b c d sp z z
  | BarGraphA _ l n ang y m => BarGraphA z l n ang y m
  end.

Fixpoint erase_points (o : plot_object) : plot_object :=
  let 'Obj a l subs := o in Obj (erase_attrs a) l (map erase_points subs).




(** ** Sample inputs *)

Definition unit_canvas : bbox := (0, 100, 0, 100).

(** An Oval twice as wide and high as [unit_canvas], and a vertical Line. *)
Definition big_oval : plot_object := Obj (OvalA (0, 0) 200 200 0) true [].
Definition vertical_line : plot_object := Obj (LineA (0, 0) (0, 10)) true [].

Definition line_kwargs : kwargs := [("p1", VTuple (0, 0)); ("p2", VTuple (10, 10))].



Definition run_value {A} (d : A) (x : result (A * rng)) : A :=
  match x with Ok (a, _) => a | Err _ => d end.

Definition run_state {A} (x : result (A * rng)) : rng :=
  match x with Ok (_, r) => r | Err _ => rng_of_list [] end.

(** A plan with one fully specified Line, run with three kinds avoided. *)
Definition scene_plan : plan := [("Line", SpecList [line_kwargs])].

Definition scene_avoid : list string := ["Axis"; "BarGraph"; "Bars"].

Definition scene_run : result (list plot_object * rng) :=
  create_scene pymath scene_plan scene_avoid unit_canvas false (rng_of_list []).





(* ======================================================================== *)
(** The value of a computation that returns, [d] otherwise. *)
Definition ok_or {A} (d : A) (x : result A) : A :=
  match x with Ok a => a | Err _ => d end.

(** A Polygon with no sides, two Lines, and a run of [demo_question_object]. *)
Definition sideless_polygon : plot_object := Obj (PolygonA (50, 50) 0 10 0) true [].
Definition two_lines : list plot_object :=
  [Obj (LineA (0, 0) (200, 50)) true []; Obj (LineA (-10, 0) (0, -30)) true []].
Definition fitted_scene : list plot_object :=
  ok_or [] (adjust_scene pymath [big_oval; vertical_line] unit_canvas).
Definition fitted_lines : list plot_object := ok_or [] (adjust_scene pymath two_lines unit_canvas).
Definition plan_run : result (list plot_object * rng) :=
  build_scene_from_plan pymath scene_plan (rng_of_list []).
Definition demo_object_run : result (saved_output * rng) :=
  demo_question_object pymath true 100 100 (rng_of_list []).
Definition demo_object_out : saved_output := run_value ([], EmptyString, false) demo_object_run.

(** * Properties *)

(** ** Comparison helpers *)


Lemma Qltb_true x y : Qltb x y = true <-> x < y.
Proof.
  unfold Qltb. rewrite negb_true_iff. split; intro H.
  - apply Qnot_le_lt. intro H'. apply Qle_bool_iff in H'. congruence.
  - destruct (Qle_bool y x) eqn:E; [apply Qle_bool_iff in E; lra | reflexivity].
Qed.

Lemma Qltb_false x y : Qltb x y = false <-> y <= x.
Proof.
  unfold Qltb. rewrite negb_false_iff. apply Qle_bool_iff.
Qed.

Lemma pymod_360_spec x :
  pymod x 360 == x - 360 * inject_Z (Qfloor (x / 360)) /\
  0 <= pymod x 360 < 360.
Proof.
  unfold pymod. split; [reflexivity|].
  pose proof (Qfloor_le (x / 360)) as H1.
  pose proof (Qlt_floor (x / 360)) as H2.
  rewrite inject_Z_plus in H2. change (inject_Z 1) with 1 in H2.
  set (f := inject_Z (Qfloor (x / 360))) in *.
  assert (Hx : x / 360 * 360 == x) by (field; discriminate).
  split; nra.
Qed.

Lemma pymod_360_compat x y : x == y -> pymod x 360 == pymod y 360.
Proof.
  intro H. unfold pymod.
  rewrite (Qfloor_comp (x / 360) (y / 360)) by (apply Qdiv_comp; [exact H | reflexivity]).
  lra.
Qed.

Lemma angle_difference_cases a b :
  let r := pymod (Qabs (a - b)) 360 in
  (r <= 180 /\ angle_difference a b == r) \/ (180 < r /\ angle_difference a b == 360 - r).
Proof.
  cbv zeta. unfold angle_difference.
  destruct (Qltb 180 (pymod (Qabs (a - b)) 360)) eqn:E.
  - right. apply Qltb_true in E. split; [exact E | reflexivity].
  - left. apply Qltb_false in E. split; [exact E | reflexivity].
Qed.

Lemma Qabs_sign x : (x == Qabs x) \/ (x == - Qabs x).
Proof. apply (Qabs_case x (fun y => x == y \/ x == - y)); intros; [left|right]; ring. Qed.

Lemma Qle_bool_false x y : Qle_bool x y = false -> y < x.
Proof.
  intro E. apply Qnot_le_lt. intro H. apply Qle_bool_iff in H. congruence.
Qed.

Lemma folded_le_abs (r : Q) (J : Z) :
  0 <= r < 360 ->
  (if Qle_bool r 180 then r else 360 - r) <= Qabs (r + 360 * inject_Z J).
Proof.
  intros [H0 H1].
  destruct (Z_le_gt_dec 0 J) as [HJ | HJ].
  - assert (0 <= inject_Z J) by (rewrite <- (inject_Z_le 0 J) ; exact HJ)
      || (change 0 with (inject_Z 0); rewrite <- Zle_Qle; exact HJ).
    rewrite Qabs_pos by lra.
    destruct (Qle_bool r 180) eqn:E; [apply Qle_bool_iff in E | apply Qle_bool_false in E]; lra.
  - assert (inject_Z J <= -1) by (change (-1) with (inject_Z (-1)); rewrite <- Zle_Qle; lia).
    rewrite Qabs_neg by lra.
    destruct (Qle_bool r 180) eqn:E; [apply Qle_bool_iff in E | apply Qle_bool_false in E]; lra.
Qed.

Lemma angle_difference_folded a b :
  let r := pymod (Qabs (a - b)) 360 in
  angle_difference a b == (if Qle_bool r 180 then r else 360 - r).
Proof.
  cbv zeta. destruct (angle_difference_cases a b) as [[H1 H2] | [H1 H2]];
    rewrite H2.
  - apply Qle_bool_iff in H1. rewrite H1. reflexivity.
  - destruct (Qle_bool (pymod (Qabs (a - b)) 360) 180) eqn:E;
      [apply Qle_bool_iff in E; lra | reflexivity].
Qed.

(** C8: for all angles [a] and [b], [angle_difference a b] lies in
    [[0, 180]], is symmetric, is [0] on equal angles, is at most
    [|a - b + 360 k|] for every whole number of turns [k] and equals it for
    one [k]: it is the smallest absolute difference modulo 360. *)
Theorem angle_difference_smallest (a b : Q) :
  0 <= angle_difference a b <= 180 /\
  angle_difference a b == angle_difference b a /\
  angle_difference a a == 0 /\
  (forall k : Z, angle_difference a b <= Qabs (a - b + 360 * inject_Z k)) /\
  (exists k : Z, angle_difference a b == Qabs (a - b + 360 * inject_Z k)).
Proof.
  pose proof (pymod_360_spec (Qabs (a - b))) as [Hr [Hr0 Hr1]].
  set (r := pymod (Qabs (a - b)) 360) in *.
  set (F := Qfloor (Qabs (a - b) / 360)) in *.
  pose proof (angle_difference_cases a b) as Hc. cbv zeta in Hc. fold r in Hc.
  split; [|split; [|split; [|split]]].
  - destruct Hc as [[? ?] | [? ?]]; lra.
  - pose proof (angle_difference_cases b a) as Hc'. cbv zeta in Hc'.
    assert (Hrr : pymod (Qabs (b - a)) 360 == r)
      by (apply pymod_360_compat; rewrite Qabs_Qminus; reflexivity).
    destruct Hc as [[? ?] | [? ?]]; destruct Hc' as [[? ?] | [? ?]]; lra.
  - pose proof (angle_difference_cases a a) as Hc'. cbv zeta in Hc'.
    assert (H0 : pymod (Qabs (a - a)) 360 == 0).
    { transitivity (pymod 0 360); [apply pymod_360_compat | reflexivity].
      rewrite Qabs_pos by lra. lra. }
    destruct Hc' as [[? ?] | [? ?]]; lra.
  - intro k. pose proof (angle_difference_folded a b) as Hf. cbv zeta in Hf. fold r in Hf.
    destruct (Qabs_sign (a - b)) as [Hs | Hs].
    + pose proof (folded_le_abs r (F + k) (conj Hr0 Hr1)) as Hl.
      rewrite inject_Z_plus in Hl.
      assert (Habs : Qabs (a - b + 360 * inject_Z k) ==
                     Qabs (r + 360 * (inject_Z F + inject_Z k)))
        by (apply Qabs_wd; lra).
      lra.
    + pose proof (folded_le_abs r (F - k) (conj Hr0 Hr1)) as Hl.
      unfold Z.sub in Hl. rewrite inject_Z_plus, inject_Z_opp in Hl.
      assert (Habs : Qabs (a - b + 360 * inject_Z k) ==
                     Qabs (r + 360 * (inject_Z F + - inject_Z k))).
      { rewrite <- Qabs_opp. apply Qabs_wd. lra. }
      lra.
  - pose proof (angle_difference_folded a b) as Hf. cbv zeta in Hf. fold r in Hf.
    destruct (Qle_bool r 180) eqn:E;
      [apply Qle_bool_iff in E | apply Qle_bool_false in E];
      destruct (Qabs_sign (a - b)) as [Hs | Hs].
    + exists (- F)%Z. rewrite inject_Z_opp.
      rewrite Hf, Qabs_pos; lra.
    + exists F. rewrite Hf, Qabs_neg; lra.
    + exists (- (F + 1))%Z. rewrite inject_Z_opp, inject_Z_plus.
      change (inject_Z 1) with 1. rewrite Hf, Qabs_neg; lra.
    + exists (F + 1)%Z. rewrite inject_Z_plus. change (inject_Z 1) with 1.
      rewrite Hf, Qabs_pos; lra.
Qed.

(** ** Direction of an arrow *)

Lemma direction_angles_spec d : dict_get direction_angles d = spec_direction_angle d.
Proof. reflexivity. Qed.

(** C6: for every arrow and every direction, [is_arrow_pointing_direction]
    answers whether the wraparound difference between the arrow's angle and
    the direction's canonical angle (upward 90, downward 270, leftward 180,
    rightward 0) is at most the tolerance; a direction outside the table
    raises [KeyError]. *)
Theorem arrow_direction_iff_within_tolerance (st : point) (len ang : Q) (lk : bool)
    (subs : list plot_object) (d : string) (tol : Q) :
  is_arrow_pointing_direction (Obj (ArrowA st len ang) lk subs) d tol =
    match spec_direction_angle d with
    | Some t => Ok (Qle_bool (angle_difference ang t) tol)
    | None => Err KeyError
    end /\
  (forall t, spec_direction_angle d = Some t ->
     (is_arrow_pointing_direction (Obj (ArrowA st len ang) lk subs) d tol = Ok true <->
      angle_difference ang t <= tol)).
Proof.
  assert (E : is_arrow_pointing_direction (Obj (ArrowA st len ang) lk subs) d tol =
    match spec_direction_angle d with
    | Some t => Ok (Qle_bool (angle_difference ang t) tol)
    | None => Err KeyError
    end).
  { unfold is_arrow_pointing_direction. rewrite direction_angles_spec.
    destruct (spec_direction_angle d); reflexivity. }
  split; [exact E |].
  intros t Ht. rewrite E, Ht. split.
  - intro H. injection H as H. apply Qle_bool_iff. exact H.
  - intro H. apply Qle_bool_iff in H. rewrite H. reflexivity.
Qed.

(** ** Segment intersection *)

Lemma pymin_le_l x y : pymin x y <= x.
Proof. unfold pymin. destruct (Qltb y x) eqn:E; [apply Qltb_true in E; lra | lra]. Qed.

Lemma pymin_le_r x y : pymin x y <= y.
Proof. unfold pymin. destruct (Qltb y x) eqn:E; [lra | apply Qltb_false in E; lra]. Qed.

Lemma pymax_ge_l x y : x <= pymax x y.
Proof. unfold pymax. destruct (Qltb x y) eqn:E; [apply Qltb_true in E; lra | lra]. Qed.

Lemma pymax_ge_r x y : y <= pymax x y.
Proof. unfold pymax. destruct (Qltb x y) eqn:E; [lra | apply Qltb_false in E; lra]. Qed.

Lemma on_segment_start a c : on_segment a a c = true.
Proof.
  unfold on_segment. repeat rewrite andb_true_iff. repeat split; apply Qle_bool_iff;
    auto using pymin_le_l, pymax_ge_l.
Qed.

Lemma on_segment_end a c : on_segment a c c = true.
Proof.
  unfold on_segment. repeat rewrite andb_true_iff. repeat split; apply Qle_bool_iff;
    auto using pymin_le_r, pymax_ge_r.
Qed.

Lemma orientation_zero a b c :
  (snd b - snd a) * (fst c - fst b) - (fst b - fst a) * (snd c - snd b) == 0 ->
  orientation a b c = 0%nat.
Proof.
  intro H. unfold orientation.
  assert (Hl : Qltb (Qabs ((snd b - snd a) * (fst c - fst b) - (fst b - fst a) * (snd c - snd b)))
                    (1 # 1000000000) = true).
  { apply Qltb_true. rewrite (Qabs_wd _ 0 H). reflexivity. }
  rewrite Hl. reflexivity.
Qed.

Lemma orientation_repeat_end a b : orientation a b b = 0%nat.
Proof. apply orientation_zero. ring. Qed.

Lemma orientation_back_to_start a b : orientation a b a = 0%nat.
Proof. apply orientation_zero. ring. Qed.

Lemma line_line_intersect_branches p1 p2 p3 p4 :
  _line_line_intersect p1 p2 p3 p4 =
    (negb (Nat.eqb (orientation p1 p2 p3) (orientation p1 p2 p4)) &&
     negb (Nat.eqb (orientation p3 p4 p1) (orientation p3 p4 p2))) ||
    (Nat.eqb (orientation p1 p2 p3) 0 && on_segment p1 p3 p2) ||
    (Nat.eqb (orientation p1 p2 p4) 0 && on_segment p1 p4 p2) ||
    (Nat.eqb (orientation p3 p4 p1) 0 && on_segment p3 p1 p4) ||
    (Nat.eqb (orientation p3 p4 p2) 0 && on_segment p3 p2 p4).
Proof.
  unfold _line_line_intersect.
  repeat match goal with |- context [if ?c then _ else _] => destruct c end; reflexivity.
Qed.

(** C7: [_line_line_intersect] accepts the crossing diagonals
    (0,0)-(10,10) and (0,10)-(10,0), rejects the parallel segments
    (0,0)-(10,0) and (0,5)-(10,5), and accepts every pair of segments that
    share an endpoint, whichever endpoints of the two segments coincide. *)
Theorem line_line_intersect_cases :
  _line_line_intersect (0,0) (10,10) (0,10) (10,0) = true /\
  _line_line_intersect (0,0) (10,0) (0,5) (10,5) = false /\
  (forall p q r : point,
     _line_line_intersect p q q r = true /\
     _line_line_intersect p q p r = true /\
     _line_line_intersect p q r p = true /\
     _line_line_intersect p q r q = true).
Proof.
  split; [reflexivity | split; [reflexivity |]].
  intros p q r. repeat split; rewrite line_line_intersect_branches;
    repeat rewrite orb_true_iff.
  - left; left; left; right.
    now rewrite orientation_repeat_end, on_segment_end.
  - left; left; left; right.
    now rewrite orientation_back_to_start, on_segment_start.
  - left; left; right.
    now rewrite orientation_back_to_start, on_segment_start.
  - left; left; right.
    now rewrite orientation_repeat_end, on_segment_end.
Qed.

(** ** Coordinate transformations *)

(** C9: [apply_transformation func] changes nothing but the point-valued
    fields [p1], [p2], [center], [base_position] and the elements of
    [vertices], through the whole tree of children: once these are erased,
    the transformed object equals the original one, so every scalar field
    (width, height, radius, length, angle, spacing, axis length, ...), the
    lock flags and the children structure are unchanged. *)
Theorem apply_transformation_only_points (func : point -> point) (o : plot_object) :
  erase_points (apply_transformation func o) = erase_points o.
Proof.
  revert o. fix IH 1. intros [a l subs]. simpl. f_equal.
  - destruct a; simpl; try reflexivity.
    + now rewrite map_map.
    + now destruct base_position.
  - revert subs. fix IHl 1. intros [| s subs']; simpl; [reflexivity |].
    now rewrite IH, IHl.
Qed.

(** ** Scene construction from a plan *)

Lemma bind_ret_r {A} (m : M A) : forall r, bind m ret r = m r.
Proof. intro r. unfold bind, ret. destruct (m r) as [[a r'] | e]; reflexivity. Qed.

(** C4 (amended): an entry of the plan whose alias is not a key of
    [OBJECT_TYPES] is skipped ([continue]): no error is raised and the scene
    is the one the remaining entries build. *)
Theorem build_scene_skips_unknown_alias (fm : float_math) (alias : string)
    (spec : plan_spec) (rest : plan) (r : rng)
    (Hunknown : dict_get (OBJECT_TYPES fm) alias = None) :
  build_scene_from_plan fm ((alias, spec) :: rest) r = build_scene_from_plan fm rest r.
Proof.
  cbn [build_scene_from_plan]. rewrite Hunknown.
  unfold bind at 1. unfold ret at 1. apply bind_ret_r.
Qed.

Lemma build_scene_skips_unknown_alias_witness :
  dict_get (OBJECT_TYPES pymath) "Circle" = None /\
  build_scene_from_plan pymath [("Circle", SpecInt 1); ("Line", SpecList [line_kwargs])]
    (rng_of_list []) =
  build_scene_from_plan pymath [("Line", SpecList [line_kwargs])] (rng_of_list []).
Proof.
  split; [reflexivity |].
  apply (build_scene_skips_unknown_alias pymath "Circle" (SpecInt 1)); reflexivity.
Defined.

(** C4: a plan asking for one [Circle], a kind outside [OBJECT_TYPES], and
    one fully specified Line does not fail: the call returns the Line alone. *)
Lemma build_scene_unknown_alias_no_error :
  build_scene_from_plan pymath [("Circle", SpecInt 1); ("Line", SpecList [line_kwargs])]
    (rng_of_list []) =
  Ok ([Obj (LineA (0, 0) (10, 10)) true []], rng_of_list []).
Proof. reflexivity. Qed.

(** ** Locked geometry *)

Lemma locked_attrs_kept (fm : float_math) (d : nat) (o : plot_object) (r : rng)
    (o' : plot_object) (r' : rng) :
  obj_locked o = true -> assign_geometry_rec fm d o r = Ok (o', r') ->
  obj_attrs o' = obj_attrs o /\ obj_locked o' = true.
Proof.
  intros Hl H. destruct d as [| d]; [discriminate |].
  destruct o as [a lk subs]. simpl in Hl. subst lk.
  destruct a; cbn -[mapM] in H; unfold bind, ret, lift in H;
  repeat match type of H with
  | context [match ?x with _ => _ end] =>
      lazymatch x with context [mapM] => fail | _ => destruct x eqn:? end
  end;
  try discriminate;
  match type of H with
  | context [mapM ?f ?l ?s] => destruct (mapM f l s) as [[? ?] | ?]; inversion H; subst; auto
  end.
Qed.

(** C3: a Line given both endpoints, an Oval or a Rectangle given center,
    width, height and angle, a Triangle given three vertices, a Polygon
    given center, sides, radius and angle, and an Arrow given start, length
    and angle are built with exactly that geometry and locked; and every
    call of [assign_geometry] (at any recursion depth) on a locked shape that
    returns leaves all of its geometric fields as they were and the shape
    locked, so any number of later calls change none of them. *)
Theorem locked_geometry_unchanged (fm : float_math) :
  (forall p q r, LineLow [("p1", VTuple p); ("p2", VTuple q)] r = Ok (Obj (LineA p q) true [], r)) /\
  (forall c w h ang r,
     OvalLow [("center", VTuple c); ("width", VFloat w); ("height", VFloat h);
              ("angle", VFloat ang)] r = Ok (Obj (OvalA c w h ang) true [], r)) /\
  (forall c w h ang r,
     RectangleObj [("center", VTuple c); ("width", VFloat w); ("height", VFloat h);
                   ("angle", VFloat ang)] r =
     Ok (Obj (RectangleA c w h ang) true (repeat new_line 4), r)) /\
  (forall vs r, List.length vs = 3%nat ->
     TriangleObj [("vertices", VList vs)] r = Ok (Obj (TriangleA vs) true (repeat new_line 3), r)) /\
  (forall c s rad ang r,
     PolygonObj [("center", VTuple c); ("sides", VInt s); ("radius", VFloat rad);
                 ("angle", VFloat ang)] r =
     Ok (Obj (PolygonA c s rad ang) true (repeat new_line 10), r)) /\
  (forall st len ang r,
     ArrowObj [("start", VTuple st); ("length", VFloat len); ("angle", VFloat ang)] r =
     Ok (Obj (ArrowA st len ang) true (repeat new_line 3), r)) /\
  (forall o d r o' r', obj_locked o = true -> assign_geometry_rec fm d o r = Ok (o', r') ->
     obj_attrs o' = obj_attrs o /\ obj_locked o' = true).
Proof.
  split; [reflexivity | split; [reflexivity | split; [reflexivity | split]]].
  - intros vs r Hl. destruct vs as [| ? [| ? [| ? [| ? ?]]]]; try discriminate. reflexivity.
  - split; [reflexivity | split; [reflexivity |]].
    intros o d r o' r'. exact (locked_attrs_kept fm d o r o' r').
Qed.



Lemma bind_ok {A B} (m : M A) (k : A -> M B) r x r' :
  bind m k r = Ok (x, r') -> exists a r1, m r = Ok (a, r1) /\ k a r1 = Ok (x, r').
Proof.
  unfold bind. destruct (m r) as [[a r1] | e]; [eauto | discriminate].
Qed.




Lemma assign_geometry_unfold fm o r :
  assign_geometry fm o r = assign_geometry_rec fm recursion_limit o r.
Proof. unfold assign_geometry. reflexivity. Qed.





(** ** Fitting a scene to the canvas *)

(** C1: [adjust_scene] does not always bring the scene inside the canvas.
    An Oval of width and height 200 centred at the origin is fitted to the
    canvas [(0, 100, 0, 100)] with scale [1/2]: its center moves to
    [(50, 50)] but its width and height stay 200, so its bounding box is
    [(-50, -50, 150, 150)].  A scene of one vertical Line (bounding box of
    width 0) raises [ZeroDivisionError]. *)
Theorem adjust_scene_oval_overflows (fm : float_math) :
  match rbind (adjust_scene fm [big_oval] unit_canvas) (map_result (get_bbox fm)) with
  | Ok [b] => bx0 b == -50 /\ by0 b == -50 /\ bx1 b == 150 /\ by1 b == 150
  | _ => False
  end /\
  adjust_scene fm [vertical_line] unit_canvas = Err ZeroDivisionError.
Proof.
  split; [vm_compute; repeat split; reflexivity | vm_compute; reflexivity].
Qed.

(** ** Scene size *)

(** Follows a run of the state monad through its binds and branches. *)
Ltac peel H :=
  repeat (cbv beta in H;
  match type of H with
  | bind _ _ _ = Ok _ =>
      let x := fresh "x" in let r := fresh "r" in let Hx := fresh "Hx" in
      apply bind_ok in H as (x & r & Hx & H)
  | ret _ _ = Ok _ => unfold ret in H; injection H as <- <-
  | raise _ _ = Ok _ => discriminate H
  | lift ?x _ = Ok _ => unfold lift in H; destruct x
  | (if ?b then _ else _) _ = Ok _ => destruct b eqn:?
  | (match ?x with _ => _ end) _ = Ok _ => destruct x eqn:?
  end).

Lemma assign_keeps_alias fm d o r o' r' :
  assign_geometry_rec fm d o r = Ok (o', r') -> ALIAS o' = ALIAS o.
Proof.
  intros H. destruct d as [| d]; [discriminate |].
  destruct o as [a lk subs].
  destruct a; cbn [assign_geometry_rec] in H; peel H; reflexivity.
Qed.

Lemma choice_in {A} (l : list A) r x r' : choice l r = Ok (x, r') -> In x l.
Proof.
  unfold choice. intro H. peel H. eapply nth_error_In. eassumption.
Qed.

Lemma object_types_alias fm k cls r o r' :
  dict_get (OBJECT_TYPES fm) k = Some cls -> cls [] r = Ok (o, r') -> ALIAS o = k.
Proof.
  intros Hk H. unfold OBJECT_TYPES in Hk. cbn [dict_get] in Hk.
  repeat match type of Hk with
  | (if String.eqb k ?s then _ else _) = _ =>
      destruct (String.eqb_spec k s) as [-> | ?]; [injection Hk as <- | ]
  end; try discriminate;
  unfold LineLow, OvalLow, RectangleObj, BarsObj, AxisObj, BarGraphObj, TriangleObj,
    PolygonObj, ArrowObj in H; peel H; reflexivity.
Qed.

Lemma pad_scene_spec fm fuel avail scene r scene' r' :
  avail <> [] -> (min_total <= List.length scene + fuel)%nat ->
  pad_scene fm fuel avail scene r = Ok (scene', r') ->
  exists extras, scene' = (scene ++ extras)%list /\
    Forall (fun o => In (ALIAS o) avail) extras /\
    ((min_total <= List.length scene)%nat -> extras = []) /\
    ((List.length scene < min_total)%nat -> List.length scene' = min_total).
Proof.
  intros Hav. revert scene r. induction fuel as [| fuel IH]; intros scene r Hf H.
  - injection H as <- _. exists []. rewrite app_nil_r. unfold min_total in *.
    repeat split; [constructor | intros; lia].
  - cbn [pad_scene] in H.
    destruct (Nat.ltb (List.length scene) min_total &&
              negb (Nat.eqb (List.length avail) 0)) eqn:Ec.
    + apply andb_true_iff in Ec as [Elt _]. apply Nat.ltb_lt in Elt.
      apply bind_ok in H as (t & r1 & Ht & H).
      destruct (dict_get (OBJECT_TYPES fm) t) as [cls |] eqn:Ek; [| discriminate].
      apply bind_ok in H as (o & r2 & Ho & H).
      assert (Hlen : List.length (scene ++ [o]) = S (List.length scene))
        by (rewrite length_app; simpl; lia).
      destruct (IH (scene ++ [o])%list r2 ltac:(rewrite Hlen; lia) H)
        as (ex & -> & Hall & Hge & Hlt).
      exists (o :: ex). split; [rewrite <- app_assoc; reflexivity |].
      split; [constructor; [rewrite (object_types_alias fm t cls r1 o r2 Ek Ho);
                            exact (choice_in avail r t r1 Ht) | exact Hall] |].
      split; [intro; lia |]. intros _.
      destruct (Nat.eq_dec (S (List.length scene)) min_total) as [E | E].
      * rewrite (Hge ltac:(lia)), app_nil_r. rewrite Hlen. exact E.
      * apply Hlt. lia.
    + injection H as <- _. exists []. rewrite app_nil_r.
      split; [reflexivity | split; [constructor | split; [reflexivity |]]].
      intro Hlt. apply Nat.ltb_lt in Hlt. rewrite Hlt in Ec. simpl in Ec.
      destruct avail; [contradiction | discriminate].
Qed.

Lemma mapM_Forall2 {A B} (f : A -> M B) (P : A -> B -> Prop) l r l' r' :
  (forall x r0 y r1, f x r0 = Ok (y, r1) -> P x y) ->
  mapM f l r = Ok (l', r') -> Forall2 P l l'.
Proof.
  intro Hf. revert r l' r'. induction l as [| x l IH]; intros r l' r' H.
  - injection H as <- _. constructor.
  - cbn [mapM] in H. apply bind_ok in H as (y & r1 & Hy & H).
    apply bind_ok in H as (ys & r2 & Hys & H). injection H as <- _.
    constructor; [exact (Hf _ _ _ _ Hy) | exact (IH _ _ _ Hys)].
Qed.

Lemma mapM_assign_alias fm l r l' r' :
  mapM (assign_geometry fm) l r = Ok (l', r') -> map ALIAS l' = map ALIAS l.
Proof.
  intro H.
  assert (HF : Forall2 (fun x y => ALIAS y = ALIAS x) l l').
  { apply (mapM_Forall2 (assign_geometry fm) _ l r l' r'); [| exact H].
    intros x r0 y r1 Hy. rewrite assign_geometry_unfold in Hy.
    exact (assign_keeps_alias fm recursion_limit x r0 y r1 Hy). }
  clear H. induction HF as [| x y l l' Hxy _ IH]; [reflexivity |].
  cbn [map]. rewrite Hxy, IH. reflexivity.
Qed.

Lemma transform_alias f o : ALIAS (apply_transformation f o) = ALIAS o.
Proof. destruct o as [[] ? ?]; reflexivity. Qed.

Lemma adjust_scene_alias fm s c s' :
  adjust_scene fm s c = Ok s' -> map ALIAS s' = map ALIAS s.
Proof.
  unfold adjust_scene, rbind. intro H.
  repeat match type of H with
  | context [match ?x with _ => _ end] => destruct x eqn:?
  end; try discriminate; injection H as <-; try reflexivity;
  rewrite map_map; apply map_ext; intro; apply transform_alias.
Qed.

Lemma available_not_avoided fm avoid t :
  In t (available_types fm avoid) -> ~ In t avoid.
Proof.
  unfold available_types. intros H Hin. apply filter_In in H as [_ H].
  apply negb_true_iff in H.
  assert (E : existsb (String.eqb t) avoid = true).
  { apply existsb_exists. exists t. split; [exact Hin | apply String.eqb_refl]. }
  rewrite E in H. discriminate.
Qed.

(** C5: when at least one kind is left available, every run of
    [create_scene] that returns gives a scene of 3 to 6 roots.  The plan's
    objects are built first; [pad_scene] then appends distractors, none of
    an avoided kind, until there are 3 (none when the plan gave 3 or more);
    [trim_scene] keeps the first 6; only then is [assign_geometry] applied
    to each root, and the scene returned (fitted unless [allow_partial]) has
    the kinds of the padded and trimmed list, in order. *)
Theorem create_scene_size_band (fm : float_math) (p : plan) (avoid : list string) (canvas : bbox)
    (allow_partial : bool) (r : rng) (scene : list plot_object) (r' : rng)
    (Havail : available_types fm avoid <> [])
    (H : create_scene fm p avoid canvas allow_partial r = Ok (scene, r')) :
  (min_total <= List.length scene <= max_total)%nat /\
  exists built r1 extras r2 assigned r3,
    build_scene_from_plan fm p r = Ok (built, r1) /\
    pad_scene fm min_total (available_types fm avoid) built r1 = Ok ((built ++ extras)%list, r2) /\
    ((min_total <= List.length built)%nat -> extras = []) /\
    ((List.length built < min_total)%nat -> List.length (built ++ extras) = min_total) /\
    Forall (fun o => ~ In (ALIAS o) avoid) extras /\
    mapM (assign_geometry fm) (trim_scene (built ++ extras)) r2 = Ok (assigned, r3) /\
    (if allow_partial then scene = assigned else adjust_scene fm assigned canvas = Ok scene) /\
    map ALIAS scene = map ALIAS (trim_scene (built ++ extras)).
Proof.
  unfold create_scene in H.
  apply bind_ok in H as (s1 & r1' & Hp & H).
  unfold padded_scene in Hp.
  apply bind_ok in Hp as (built & r1 & Hb & Hp).
  apply bind_ok in Hp as (padded & r2 & Hpad & Hp).
  injection Hp as <- <-.
  apply bind_ok in H as (assigned & r3 & Hm & H).
  destruct (pad_scene_spec fm min_total _ built r1 padded r2 Havail ltac:(unfold min_total; lia) Hpad)
    as (extras & -> & Hall & Hge & Hlt).
  assert (Hfin : (if allow_partial then scene = assigned
                  else adjust_scene fm assigned canvas = Ok scene) /\
                 map ALIAS scene = map ALIAS assigned).
  { destruct allow_partial.
    - injection H as <- _. split; reflexivity.
    - unfold lift in H. destruct (adjust_scene fm assigned canvas) as [s' | e] eqn:Ea;
        [| discriminate].
      injection H as <- _. split; [reflexivity | exact (adjust_scene_alias fm _ _ _ Ea)]. }
  destruct Hfin as [Hfin Halias].
  assert (Hlen : List.length scene = List.length (trim_scene (built ++ extras))).
  { rewrite <- (length_map ALIAS scene), <- (length_map ALIAS (trim_scene _)).
    rewrite Halias, (mapM_assign_alias fm _ _ _ _ Hm). reflexivity. }
  split.
  - rewrite Hlen. unfold trim_scene. rewrite length_firstn.
    destruct (Nat.lt_ge_cases (List.length built) min_total) as [Hl | Hl].
    + rewrite (Hlt Hl). unfold min_total, max_total. lia.
    + rewrite (Hge Hl), app_nil_r. unfold min_total, max_total in *. lia.
  - exists built, r1, extras, r2, assigned, r3.
    split; [exact Hb | split; [exact Hpad | split; [exact Hge | split; [exact Hlt | split]]]].
    + eapply Forall_impl; [| exact Hall].
      intros o Ho. exact (available_not_avoided fm avoid (ALIAS o) Ho).
    + split; [exact Hm | split; [exact Hfin |]].
      rewrite Halias. exact (mapM_assign_alias fm _ _ _ _ Hm).
Qed.

Lemma create_scene_size_band_witness :
  available_types pymath scene_avoid <> [] /\
  create_scene pymath scene_plan scene_avoid unit_canvas false (rng_of_list []) =
    Ok (run_value [] scene_run, run_state scene_run) /\
  (min_total <= List.length (run_value [] scene_run) <= max_total)%nat.
Proof.
  split; [vm_compute; discriminate |]. split; [vm_compute; reflexivity |].
  exact (proj1 (create_scene_size_band pymath scene_plan scene_avoid unit_canvas false
                  (rng_of_list []) (run_value [] scene_run) (run_state scene_run)
                  ltac:(vm_compute; discriminate) ltac:(vm_compute; reflexivity))).
Defined.

(** ** Exhausted retry loops *)









(** ** Further properties of the embedded code *)


Lemma Qle_bool_compat x x' y y' : x == x' -> y == y' -> Qle_bool x y = Qle_bool x' y'.
Proof.
  intros Hx Hy.
  destruct (Qle_bool x y) eqn:E, (Qle_bool x' y') eqn:E'; try reflexivity.
  - apply Qle_bool_iff in E. apply Qle_bool_false in E'. lra.
  - apply Qle_bool_false in E. apply Qle_bool_iff in E'. lra.
Qed.

Lemma Qltb_compat x x' y y' : x == x' -> y == y' -> Qltb x y = Qltb x' y'.
Proof. intros Hx Hy. unfold Qltb. f_equal. apply Qle_bool_compat; assumption. Qed.

Lemma angle_difference_sym a b : angle_difference a b == angle_difference b a.
Proof.
  pose proof (angle_difference_cases a b) as Hc.
  pose proof (angle_difference_cases b a) as Hc'. cbv zeta in Hc, Hc'.
  assert (Hrr : pymod (Qabs (b - a)) 360 == pymod (Qabs (a - b)) 360)
    by (apply pymod_360_compat; rewrite Qabs_Qminus; reflexivity).
  destruct Hc as [[? ?] | [? ?]]; destruct Hc' as [[? ?] | [? ?]]; lra.
Qed.

Lemma angle_difference_refl a : angle_difference a a == 0.
Proof.
  pose proof (angle_difference_cases a a) as Hc. cbv zeta in Hc.
  assert (H0 : pymod (Qabs (a - a)) 360 == 0).
  { transitivity (pymod 0 360); [apply pymod_360_compat | reflexivity].
    rewrite Qabs_pos by lra. lra. }
  destruct Hc as [[? ?] | [? ?]]; lra.
Qed.

Lemma line_points_err o e : line_points o = Err e -> e = AttributeError.
Proof. unfold line_points. destruct (obj_attrs o); intro H; inversion H; reflexivity. Qed.

(** X1: [are_lines_parallel] and [are_lines_perpendicular] do not depend on
    the order of their two lines, and a Line (or Axis) is parallel to itself
    for every tolerance [tol >= 0]. *)
Theorem line_tests_symmetric (fm : float_math) :
  (forall l1 l2 tol, are_lines_parallel fm l1 l2 tol = are_lines_parallel fm l2 l1 tol) /\
  (forall l1 l2 tol, are_lines_perpendicular fm l1 l2 tol = are_lines_perpendicular fm l2 l1 tol) /\
  (forall l p q tol, line_points l = Ok (p, q) -> 0 <= tol ->
     are_lines_parallel fm l l tol = Ok true).
Proof.
  split; [| split].
  - intros l1 l2 tol. unfold are_lines_parallel, rbind.
    destruct (line_points l1) as [[p1 p2] | e1] eqn:E1, (line_points l2) as [[q1 q2] | e2] eqn:E2;
      try reflexivity.
    + f_equal. apply Qle_bool_compat; [apply angle_difference_sym | reflexivity].
    + rewrite (line_points_err _ _ E1), (line_points_err _ _ E2). reflexivity.
  - intros l1 l2 tol. unfold are_lines_perpendicular, rbind.
    destruct (line_points l1) as [[p1 p2] | e1] eqn:E1, (line_points l2) as [[q1 q2] | e2] eqn:E2;
      try reflexivity.
    + f_equal. apply Qle_bool_compat; [| reflexivity].
      apply Qabs_wd. rewrite angle_difference_sym. reflexivity.
    + rewrite (line_points_err _ _ E1), (line_points_err _ _ E2). reflexivity.
  - intros l p q tol E Ht. unfold are_lines_parallel, rbind. rewrite E.
    f_equal. apply Qle_bool_iff. rewrite angle_difference_refl. exact Ht.
Qed.

(** X2: with a tolerance below 45 degrees no pair of lines is reported both
    parallel and perpendicular; an object without [p1]/[p2] makes both tests
    raise [AttributeError]. *)
Theorem parallel_excludes_perpendicular (fm : float_math) :
  (forall l1 l2 tol, tol < 45 -> are_lines_parallel fm l1 l2 tol = Ok true ->
     are_lines_perpendicular fm l1 l2 tol = Ok false) /\
  (forall l1 l2 tol, line_points l1 = Err AttributeError \/ line_points l2 = Err AttributeError ->
     are_lines_parallel fm l1 l2 tol = Err AttributeError /\
     are_lines_perpendicular fm l1 l2 tol = Err AttributeError).
Proof.
  split.
  - intros l1 l2 tol Ht. unfold are_lines_parallel, are_lines_perpendicular, rbind.
    destruct (line_points l1) as [[p1 p2] | e1]; [| discriminate].
    destruct (line_points l2) as [[q1 q2] | e2]; [| discriminate].
    intro H. injection H as H. apply Qle_bool_iff in H. f_equal.
    set (d := angle_difference _ _) in *.
    destruct (Qle_bool (Qabs (d - 90)) tol) eqn:E; [| reflexivity].
    apply Qle_bool_iff in E. rewrite Qabs_neg in E by lra. lra.
  - intros l1 l2 tol [E | E]; unfold are_lines_parallel, are_lines_perpendicular, rbind.
    + rewrite E. split; reflexivity.
    + destruct (line_points l1) as [[p1 p2] | e1] eqn:E1.
      * rewrite E. split; reflexivity.
      * rewrite (line_points_err _ _ E1). split; reflexivity.
Qed.

(** Orientation and segments *)
Lemma orientation_swap a b c : orientation b a c = swap12 (orientation a b c).
Proof.
  unfold orientation.
  set (v := (snd b - snd a) * (fst c - fst b) - (fst b - fst a) * (snd c - snd b)).
  assert (Hv : (snd a - snd b) * (fst c - fst a) - (fst a - fst b) * (snd c - snd a) == - v)
    by (unfold v; ring).
  rewrite (Qltb_compat _ (Qabs v) (1 # 1000000000) (1 # 1000000000))
    by (reflexivity || (transitivity (Qabs (- v)); [apply Qabs_wd; exact Hv | apply Qabs_opp])).
  rewrite (Qltb_compat 0 0 _ (- v)) by (reflexivity || exact Hv).
  destruct (Qltb (Qabs v) (1 # 1000000000)) eqn:Ea; [reflexivity |].
  apply Qltb_false in Ea.
  destruct (Qltb 0 v) eqn:E1; destruct (Qltb 0 (- v)) eqn:E2; try reflexivity.
  - apply Qltb_true in E1, E2. lra.
  - apply Qltb_false in E1, E2.
    assert (Hz : v == 0) by lra. rewrite Hz in Ea. simpl in Ea. exfalso.
    apply (Qle_not_lt _ _ Ea). reflexivity.
Qed.

Lemma swap12_eqb a b : Nat.eqb (swap12 a) (swap12 b) = Nat.eqb a b.
Proof. destruct a as [| [| [| a]]], b as [| [| [| b]]]; reflexivity. Qed.

Lemma swap12_zero a : Nat.eqb (swap12 a) 0 = Nat.eqb a 0.
Proof. destruct a as [| [| [| a]]]; reflexivity. Qed.

Lemma pymin_comm x y : pymin x y == pymin y x.
Proof.
  unfold pymin. destruct (Qltb y x) eqn:E1, (Qltb x y) eqn:E2;
    try (apply Qltb_true in E1); try (apply Qltb_true in E2);
    try (apply Qltb_false in E1); try (apply Qltb_false in E2); lra.
Qed.

Lemma pymax_comm x y : pymax x y == pymax y x.
Proof.
  unfold pymax. destruct (Qltb y x) eqn:E1, (Qltb x y) eqn:E2;
    try (apply Qltb_true in E1); try (apply Qltb_true in E2);
    try (apply Qltb_false in E1); try (apply Qltb_false in E2); lra.
Qed.

Lemma on_segment_sym a b c : on_segment c b a = on_segment a b c.
Proof.
  unfold on_segment.
  rewrite (Qle_bool_compat (pymin (fst c) (fst a)) (pymin (fst a) (fst c)) (fst b) (fst b))
    by (apply pymin_comm || reflexivity).
  rewrite (Qle_bool_compat (fst b) (fst b) (pymax (fst c) (fst a)) (pymax (fst a) (fst c)))
    by (apply pymax_comm || reflexivity).
  rewrite (Qle_bool_compat (pymin (snd c) (snd a)) (pymin (snd a) (snd c)) (snd b) (snd b))
    by (apply pymin_comm || reflexivity).
  rewrite (Qle_bool_compat (snd b) (snd b) (pymax (snd c) (snd a)) (pymax (snd a) (snd c)))
    by (apply pymax_comm || reflexivity).
  reflexivity.
Qed.

(** X3: [_line_line_intersect] gives the same answer when the two segments
    are swapped, and when the end points of either segment are swapped. *)
Theorem line_line_intersect_symmetric (p1 p2 p3 p4 : point) :
  _line_line_intersect p3 p4 p1 p2 = _line_line_intersect p1 p2 p3 p4 /\
  _line_line_intersect p2 p1 p3 p4 = _line_line_intersect p1 p2 p3 p4 /\
  _line_line_intersect p1 p2 p4 p3 = _line_line_intersect p1 p2 p3 p4.
Proof.
  rewrite !line_line_intersect_branches.
  rewrite (orientation_swap p1 p2 p3), (orientation_swap p1 p2 p4),
          (orientation_swap p3 p4 p1), (orientation_swap p3 p4 p2).
  rewrite !swap12_eqb, !swap12_zero.
  rewrite (on_segment_sym p1 p3 p2), (on_segment_sym p1 p4 p2),
          (on_segment_sym p3 p1 p4), (on_segment_sym p3 p2 p4).
  rewrite (Nat.eqb_sym (orientation p3 p4 p2) (orientation p3 p4 p1)),
          (Nat.eqb_sym (orientation p1 p2 p4) (orientation p1 p2 p3)).
  destruct (Nat.eqb (orientation p1 p2 p3) (orientation p1 p2 p4)),
           (Nat.eqb (orientation p3 p4 p1) (orientation p3 p4 p2)),
           (Nat.eqb (orientation p1 p2 p3) 0), (Nat.eqb (orientation p1 p2 p4) 0),
           (Nat.eqb (orientation p3 p4 p1) 0), (Nat.eqb (orientation p3 p4 p2) 0),
           (on_segment p1 p3 p2), (on_segment p1 p4 p2),
           (on_segment p3 p1 p4), (on_segment p3 p2 p4);
    repeat split.
Qed.

(** X4: applying [apply_transformation] with [g] and then with [f] is
    applying it once with their composition, and the identity leaves an
    object unchanged. *)
Theorem apply_transformation_compose (f g : point -> point) (o : plot_object) :
  apply_transformation f (apply_transformation g o) = apply_transformation (fun p => f (g p)) o /\
  apply_transformation (fun p => p) o = o.
Proof.
  split.
  - revert o. fix IH 1. intros [a l subs]. simpl. f_equal.
    + destruct a; simpl; try reflexivity.
      * now rewrite map_map.
      * now destruct base_position.
    + revert subs. fix IHl 1. intros [| s subs']; simpl; [reflexivity |].
      now rewrite IH, IHl.
  - revert o. fix IH 1. intros [a l subs]. simpl. f_equal.
    + destruct a; simpl; try reflexivity.
      * now rewrite map_id.
      * now destruct base_position.
    + revert subs. fix IHl 1. intros [| s subs']; simpl; [reflexivity |].
      now rewrite IH, IHl.
Qed.


Lemma dict_get_set_same {A} (d : list (string * A)) k v : dict_get (dict_set d k v) k = Some v.
Proof.
  induction d as [| [k' v'] d IH]; simpl.
  - rewrite String.eqb_refl. reflexivity.
  - destruct (String.eqb k k') eqn:E; simpl; rewrite E; [reflexivity | exact IH].
Qed.

Lemma dict_get_set_other {A} (d : list (string * A)) k k2 v :
  k2 <> k -> dict_get (dict_set d k v) k2 = dict_get d k2.
Proof.
  intro Hne. induction d as [| [k' v'] d IH]; simpl.
  - apply String.eqb_neq in Hne. rewrite Hne. reflexivity.
  - destruct (String.eqb k k') eqn:E; simpl.
    + apply String.eqb_eq in E. subst k'. apply String.eqb_neq in Hne. rewrite Hne. reflexivity.
    + destruct (String.eqb k2 k'); [reflexivity | exact IH].
Qed.

Lemma get_unique_id_spec a c :
  exists c1, get_unique_id a c = (id_start c a, c1) /\
    dict_get c1 a = Some (S (id_start c a)) /\
    (forall b, b <> a -> dict_get c1 b = dict_get c b).
Proof.
  unfold get_unique_id, id_start. destruct (dict_get c a) as [n |] eqn:E.
  - rewrite E. eexists. split; [reflexivity |]. split; [apply dict_get_set_same |].
    intros b Hb. apply dict_get_set_other. exact Hb.
  - rewrite dict_get_set_same. eexists. split; [reflexivity |]. split; [apply dict_get_set_same |].
    intros b Hb. rewrite !dict_get_set_other by exact Hb. reflexivity.
Qed.

Lemma assign_ids_from (aliases : list string) (a : string) (c : id_counters) :
  map snd (filter (fun p => String.eqb a (fst p)) (combine aliases (fst (assign_ids aliases c)))) =
  seq (id_start c a) (List.length (filter (String.eqb a) aliases)).
Proof.
  revert c. induction aliases as [| x rest IH]; intro c; [reflexivity |].
  cbn [assign_ids]. destruct (get_unique_id_spec x c) as (c1 & -> & Hx & Ho).
  destruct (assign_ids rest c1) as [is c'] eqn:Er. cbn [fst combine filter fst].
  specialize (IH c1). rewrite Er in IH. cbn [fst] in IH.
  destruct (String.eqb a x) eqn:E.
  - apply String.eqb_eq in E. subst x. cbn [map snd List.length seq]. rewrite IH.
    unfold id_start at 2. rewrite Hx. reflexivity.
  - rewrite IH. unfold id_start. rewrite Ho; [reflexivity |].
    intro Heq. subst. rewrite String.eqb_refl in E. discriminate.
Qed.

(** X5: starting from empty counters, the objects of each class receive the
    ids 0, 1, 2, ... in creation order, whatever objects of other classes are
    created in between; every object gets one id. *)
Theorem unique_ids_per_class (aliases : list string) (a : string) :
  map snd (filter (fun p => String.eqb a (fst p)) (combine aliases (fst (assign_ids aliases [])))) =
  seq 0 (List.length (filter (String.eqb a) aliases)) /\
  List.length (fst (assign_ids aliases [])) = List.length aliases.
Proof.
  split; [exact (assign_ids_from aliases a []) |].
  generalize (@nil (string * nat)). induction aliases as [| x rest IH]; intro c; [reflexivity |].
  cbn [assign_ids]. destruct (get_unique_id_spec x c) as (c1 & -> & _ & _).
  specialize (IH c1). destruct (assign_ids rest c1) as [is c']. simpl in *. rewrite IH. reflexivity.
Qed.

(* ---- bounding boxes ---- *)

Lemma fold_pymin_le l x : fold_left pymin l x <= x.
Proof.
  revert x. induction l as [| y l IH]; intro x; simpl; [lra |].
  specialize (IH (pymin x y)). pose proof (pymin_le_l x y). lra.
Qed.

Lemma fold_pymax_ge l x : x <= fold_left pymax l x.
Proof.
  revert x. induction l as [| y l IH]; intro x; simpl; [lra |].
  specialize (IH (pymax x y)). pose proof (pymax_ge_l x y). lra.
Qed.

Lemma fold_pymin_le_mem l x y : In y l -> fold_left pymin l x <= y.
Proof.
  revert x. induction l as [| z l IH]; intros x Hy; [destruct Hy |].
  simpl. destruct Hy as [-> | Hy].
  - pose proof (fold_pymin_le l (pymin x y)). pose proof (pymin_le_r x y). lra.
  - apply IH. exact Hy.
Qed.

Lemma fold_pymax_ge_mem l x y : In y l -> y <= fold_left pymax l x.
Proof.
  revert x. induction l as [| z l IH]; intros x Hy; [destruct Hy |].
  simpl. destruct Hy as [-> | Hy].
  - pose proof (fold_pymax_ge l (pymax x y)). pose proof (pymax_ge_r x y). lra.
  - apply IH. exact Hy.
Qed.

Lemma bbox_union_ordered b bs : ordered b -> ordered (bbox_union b bs).
Proof.
  unfold ordered, bbox_union. simpl. intros [H1 H2].
  pose proof (fold_pymin_le (map bx0 bs) (bx0 b)). pose proof (fold_pymax_ge (map bx1 bs) (bx1 b)).
  pose proof (fold_pymin_le (map by0 bs) (by0 b)). pose proof (fold_pymax_ge (map by1 bs) (by1 b)).
  split; lra.
Qed.

Lemma segment_bbox_ordered p q : ordered (segment_bbox p q).
Proof.
  unfold ordered, segment_bbox. simpl.
  pose proof (pymin_le_l (fst p) (fst q)). pose proof (pymax_ge_l (fst p) (fst q)).
  pose proof (pymin_le_l (snd p) (snd q)). pose proof (pymax_ge_l (snd p) (snd q)).
  split; lra.
Qed.

Lemma min_le_max_list l x y : py_min_list l = Ok x -> py_max_list l = Ok y -> x <= y.
Proof.
  destruct l as [| h l]; [discriminate |]. simpl. intros Hx Hy.
  injection Hx as <-. injection Hy as <-.
  pose proof (fold_pymin_le l h). pose proof (fold_pymax_ge l h). lra.
Qed.

Lemma line_bboxes_ordered fm l bs :
  (fix go (l : list plot_object) : result (list bbox) :=
      match l with
      | [] => Ok []
      | c :: l' =>
          if is_line c then rbind (get_bbox fm c) (fun b => rbind (go l') (fun bs => Ok (b :: bs)))
          else go l'
      end) l = Ok bs ->
  Forall ordered bs.
Proof.
  revert bs. induction l as [| c l IH]; intros bs H.
  - injection H as <-. constructor.
  - destruct (is_line c) eqn:Ec; [| exact (IH bs H)].
    destruct c as [[] lk subs]; try discriminate.
    cbn [get_bbox rbind] in H.
    destruct ((fix go (l : list plot_object) : result (list bbox) :=
      match l with
      | [] => Ok []
      | c :: l' =>
          if is_line c then rbind (get_bbox fm c) (fun b => rbind (go l') (fun bs => Ok (b :: bs)))
          else go l'
      end) l) as [bs' |] eqn:E; [| discriminate].
    injection H as <-. constructor; [apply segment_bbox_ordered | exact (IH _ eq_refl)].
Qed.

Lemma half_nonneg w : 0 <= w -> 0 <= w / 2.
Proof. intro H. apply Qle_shift_div_l; [reflexivity | lra]. Qed.

Ltac half_ok Hw Hh :=
  match type of Hw with _ <= ?w => match type of Hh with _ <= ?h =>
    let H1 := fresh in let H2 := fresh in
    pose proof (half_nonneg _ Hw) as H1; pose proof (half_nonneg _ Hh) as H2;
    let x := fresh "x" in let y := fresh "y" in
    remember (w / 2) as x; remember (h / 2) as y; split; lra
  end end.

Ltac rbind_peel H :=
  repeat match type of H with
  | rbind ?x _ = Ok _ =>
      let E := fresh "E" in
      destruct x eqn:E; [cbn [rbind] in H | cbn [rbind] in H; discriminate H]
  end.

Lemma get_bbox_ordered_aux fm : forall o b, dims_nonneg o = true -> get_bbox fm o = Ok b -> ordered b.
Proof.
  fix IH 1. intros [a lk subs] b Hd Hb.
  cbn [dims_nonneg] in Hd. apply andb_true_iff in Hd as [Ha Hs].
  destruct a; cbn [get_bbox] in Hb.
  - injection Hb as <-. apply segment_bbox_ordered.
  - injection Hb as <-. apply andb_true_iff in Ha as [Hw Hh]. apply Qle_bool_iff in Hw, Hh.
    unfold ordered. simpl. half_ok Hw Hh.
  - rbind_peel Hb. apply line_bboxes_ordered in E.
    destruct a as [| b0 bs0].
    + injection Hb as <-. apply andb_true_iff in Ha as [Hw Hh]. apply Qle_bool_iff in Hw, Hh.
      unfold ordered. simpl. half_ok Hw Hh.
    + injection Hb as <-. apply bbox_union_ordered. inversion E. assumption.
  - rbind_peel Hb. injection Hb as <-. unfold ordered. simpl.
    split; eapply min_le_max_list; eassumption.
  - rbind_peel Hb. injection Hb as <-. unfold ordered. simpl.
    split; eapply min_le_max_list; eassumption.
  - rbind_peel Hb. apply line_bboxes_ordered in E.
    destruct a as [| b0 bs0].
    + injection Hb as <-. apply Qle_bool_iff in Ha. unfold ordered. simpl. split; lra.
    + injection Hb as <-. apply bbox_union_ordered. inversion E. assumption.
  - rbind_peel Hb. destruct subs as [| c subs'].
    + cbn in E. injection E as <-. injection Hb as <-. unfold ordered. simpl. split; lra.
    + simpl in E. destruct (get_bbox fm c) as [b0 |] eqn:Ec; [| discriminate].
      cbn [rbind] in E. rbind_peel E. injection E as <-. injection Hb as <-. apply bbox_union_ordered.
      apply (IH c b0); [| exact Ec]. simpl in Hs. apply andb_true_iff in Hs as [Hs _]. exact Hs.
  - injection Hb as <-. apply segment_bbox_ordered.
  - rbind_peel Hb. destruct subs as [| c subs'].
    + cbn in E. injection E as <-. injection Hb as <-. unfold ordered. simpl. split; lra.
    + simpl in E. destruct (get_bbox fm c) as [b0 |] eqn:Ec; [| discriminate].
      cbn [rbind] in E. rbind_peel E. injection E as <-. injection Hb as <-. apply bbox_union_ordered.
      apply (IH c b0); [| exact Ec]. simpl in Hs. apply andb_true_iff in Hs as [Hs _]. exact Hs.
Qed.


(** X7: [get_bbox] of a Polygon with 0 sides raises [ZeroDivisionError],
    of a Polygon with a negative number of sides (no corners) [ValueError],
    and of a Triangle with no vertices [ValueError]. *)
Theorem get_bbox_degenerate_raises (fm : float_math) :
  (forall c rad ang lk subs, get_bbox fm (Obj (PolygonA c 0 rad ang) lk subs) = Err ZeroDivisionError) /\
  (forall c s rad ang lk subs, (s < 0)%Z ->
     get_bbox fm (Obj (PolygonA c s rad ang) lk subs) = Err ValueError) /\
  (forall lk subs, get_bbox fm (Obj (TriangleA []) lk subs) = Err ValueError).
Proof.
  split; [reflexivity |]. split; [| reflexivity].
  intros c s rad ang lk subs Hs. destruct s as [| p | p]; try lia. reflexivity.
Qed.

Lemma map_result_err {A B} (f : A -> result B) l x e :
  In x l -> f x = Err e -> exists e', map_result f l = Err e'.
Proof.
  induction l as [| y l IH]; intros Hin He; [destruct Hin |].
  destruct Hin as [-> | Hin].
  - exists e. simpl. rewrite He. reflexivity.
  - simpl. destruct (f y) as [b | e1]; cbn [rbind]; [| eexists; reflexivity].
    destruct (IH Hin He) as [e' He']. rewrite He'. eexists. reflexivity.
Qed.

(** X8: if [get_bbox] raises for one root of the scene, [adjust_scene]
    raises. *)
Theorem adjust_scene_bbox_error (fm : float_math) (scene : list plot_object) (canvas : bbox)
    (o : plot_object) (e : py_error) (Hin : In o scene) (He : get_bbox fm o = Err e) :
  exists e', adjust_scene fm scene canvas = Err e'.
Proof.
  destruct (map_result_err _ _ _ _ Hin He) as [e' H]. exists e'.
  unfold adjust_scene. rewrite H. reflexivity.
Qed.

Lemma erase_transform (func : point -> point) (o : plot_object) :
  erase_points (apply_transformation func o) = erase_points o.
Proof.
  revert o. fix IH 1. intros [a l subs]. simpl. f_equal.
  - destruct a; simpl; try reflexivity.
    + now rewrite map_map.
    + now destruct base_position.
  - revert subs. fix IHl 1. intros [| s subs']; simpl; [reflexivity |].
    now rewrite IH, IHl.
Qed.

(** X9: a scene returned by [adjust_scene] is the input scene with only its
    point-valued fields changed: same roots, in the same order, with the same
    sizes, angles, lock flags and children. *)
Theorem adjust_scene_only_moves_points (fm : float_math) (scene : list plot_object) (canvas : bbox)
    (scene' : list plot_object) (H : adjust_scene fm scene canvas = Ok scene') :
  map erase_points scene' = map erase_points scene.
Proof.
  unfold adjust_scene in H. destruct (map_result (get_bbox fm) scene) as [bbs | e]; [| discriminate].
  cbn [rbind] in H. destruct bbs as [| b bs]; [injection H as <-; reflexivity |].
  destruct (bbox_union b bs) as [[[x0 y0] x1] y1]. destruct canvas as [[[c0 c1] c2] c3].
  unfold py_div in H. destruct (Qeqb (x1 - x0) 0); [discriminate |].
  destruct (Qeqb (y1 - y0) 0); [discriminate |]. injection H as <-.
  rewrite map_map. apply map_ext. intro o. apply erase_transform.
Qed.

(** X10: when every root has a bounding box, [adjust_scene] raises
    [ZeroDivisionError] exactly when the union box has zero width or zero
    height, and no other error. *)
Theorem adjust_scene_zero_extent (fm : float_math) (scene : list plot_object) (canvas : bbox)
    (b : bbox) (bs : list bbox) (Hb : map_result (get_bbox fm) scene = Ok (b :: bs)) :
  (adjust_scene fm scene canvas = Err ZeroDivisionError <->
   bx1 (bbox_union b bs) - bx0 (bbox_union b bs) == 0 \/
   by1 (bbox_union b bs) - by0 (bbox_union b bs) == 0) /\
  (forall e, adjust_scene fm scene canvas = Err e -> e = ZeroDivisionError).
Proof.
  unfold adjust_scene. rewrite Hb. cbn [rbind].
  destruct (bbox_union b bs) as [[[x0 y0] x1] y1]. destruct canvas as [[[c0 c1] c2] c3].
  cbn [bx0 bx1 by0 by1]. unfold py_div, Qeqb.
  destruct (Qeq_bool (x1 - x0) 0) eqn:Ex; destruct (Qeq_bool (y1 - y0) 0) eqn:Ey; cbn [rbind].
  all: split; [split; [intro Hz | intro Hz] | intros e He].
  all: try (apply Qeq_bool_iff in Ex); try (apply Qeq_bool_iff in Ey).
  all: try (left; exact Ex); try (right; exact Ey); try reflexivity; try (injection He as <-; reflexivity);
       try discriminate.
  destruct Hz as [Hz | Hz]; apply Qeq_bool_iff in Hz; congruence.
Qed.


Lemma fit_coord (c0 cw g0 W s x : Q) :
  0 < W -> 0 <= s -> s <= cw / W -> g0 <= x -> x <= g0 + W ->
  c0 <= c0 + (cw - s * W) / 2 + s * (x - g0) /\ c0 + (cw - s * W) / 2 + s * (x - g0) <= c0 + cw.
Proof.
  intros HW Hs Hsx Hx1 Hx2.
  assert (HW0 : ~ W == 0) by (intro Hw; rewrite Hw in HW; apply (Qlt_irrefl 0); exact HW).
  assert (H1 : s * W <= cw).
  { apply Qle_trans with (cw / W * W); [apply Qmult_le_compat_r; lra |].
    assert (E : cw / W * W == cw) by (field; exact HW0). rewrite E. apply Qle_refl. }
  assert (H2 : 0 <= s * (x - g0)) by (apply Qmult_le_0_compat; lra).
  assert (H3 : s * (x - g0) <= s * W).
  { rewrite !(Qmult_comm s). apply Qmult_le_compat_r; lra. }
  set (a := s * (x - g0)) in *. set (w := s * W) in *.
  assert (H4 : 0 <= (cw - w) / 2) by (apply Qle_shift_div_l; [reflexivity | lra]).
  assert (H5 : (cw - w) / 2 + w <= cw).
  { assert (E : (cw - w) / 2 + w == (cw + w) / 2) by field. rewrite E.
    apply Qle_shift_div_r; [reflexivity | lra]. }
  set (d := (cw - w) / 2) in *. split; lra.
Qed.

Lemma pymin_ge c x y : c <= x -> c <= y -> c <= pymin x y.
Proof. unfold pymin. destruct (Qltb y x); auto. Qed.

Lemma pymax_le c x y : x <= c -> y <= c -> pymax x y <= c.
Proof. unfold pymax. destruct (Qltb x y); auto. Qed.

Lemma union_bounds b bs c :
  In c (b :: bs) ->
  bx0 (bbox_union b bs) <= bx0 c /\ bx1 c <= bx1 (bbox_union b bs) /\
  by0 (bbox_union b bs) <= by0 c /\ by1 c <= by1 (bbox_union b bs).
Proof.
  unfold bbox_union. cbn [bx0 bx1 by0 by1]. intros [-> | Hin].
  - repeat split; [apply fold_pymin_le | apply fold_pymax_ge | apply fold_pymin_le | apply fold_pymax_ge].
  - repeat split; [apply fold_pymin_le_mem | apply fold_pymax_ge_mem | apply fold_pymin_le_mem
                  | apply fold_pymax_ge_mem]; apply in_map; exact Hin.
Qed.

Lemma lines_bboxes fm scene :
  Forall (fun o => is_bare_line o = true) scene ->
  exists bbs, map_result (get_bbox fm) scene = Ok bbs /\ Forall2 bare_line_bbox scene bbs.
Proof.
  induction 1 as [| o scene Ho _ IH]; [exists []; split; constructor |].
  destruct IH as (bbs & Hm & HF).
  destruct o as [[] l [| c subs]]; try discriminate.
  exists (segment_bbox p1 p2 :: bbs). split.
  - simpl. rewrite Hm. reflexivity.
  - constructor; [exists p1, p2, l; split; reflexivity | exact HF].
Qed.

Lemma Forall2_in_left {A B} (R : A -> B -> Prop) l1 l2 x :
  Forall2 R l1 l2 -> In x l1 -> exists y, In y l2 /\ R x y.
Proof.
  induction 1 as [| a b l1 l2 Hab _ IH]; intros Hin; [destruct Hin |].
  destruct Hin as [-> | Hin]; [exists b; split; [left |]; auto |].
  destruct (IH Hin) as (y & Hy & Hr). exists y. split; [right |]; auto.
Qed.

Lemma Qeq_bool_false_neq x y : Qeq_bool x y = false -> ~ x == y.
Proof. intros E Heq. apply Qeq_bool_iff in Heq. congruence. Qed.

Lemma div_nonneg a b : 0 <= a -> 0 < b -> 0 <= a / b.
Proof. intros Ha Hb. apply Qle_shift_div_l; [exact Hb | lra]. Qed.

(** X11: for a scene of bare Lines and a canvas whose minimum is not above
    its maximum on either axis, every Line that [adjust_scene] returns has its
    bounding box inside the canvas. *)
Theorem adjust_scene_fits_lines (fm : float_math) (scene : list plot_object) (canvas : bbox)
    (scene' : list plot_object)
    (Hl : Forall (fun o => is_bare_line o = true) scene)
    (Hc : let '(cx0, cx1, cy0, cy1) := canvas in cx0 <= cx1 /\ cy0 <= cy1)
    (H : adjust_scene fm scene canvas = Ok scene') :
  Forall (fun o => exists b, get_bbox fm o = Ok b /\ bbox_inside b canvas) scene'.
Proof.
  destruct (lines_bboxes fm scene Hl) as (bbs & Hm & HF).
  unfold adjust_scene in H. rewrite Hm in H. cbn [rbind] in H.
  destruct bbs as [| b bs].
  - injection H as <-. inversion HF. constructor.
  - assert (Hin : forall o, In o scene -> exists p q l, o = Obj (LineA p q) l [] /\
                                                  In (segment_bbox p q) (b :: bs)).
    { intros o Ho. destruct (Forall2_in_left _ _ _ _ HF Ho) as (y & Hy & p & q & l & -> & ->).
      exists p, q, l. split; [reflexivity | exact Hy]. }
    assert (Hord : ordered (bbox_union b bs)).
    { apply bbox_union_ordered. inversion HF as [| o b' l1 l2 (p & q & l & _ & ->)]. apply segment_bbox_ordered. }
    assert (Hb := fun p q Hpq => union_bounds b bs (segment_bbox p q) Hpq).
    clear Hm HF. revert Hord Hb H.
    destruct (bbox_union b bs) as [[[gx0 gy0] gx1] gy1]. cbn [bx0 bx1 by0 by1].
    destruct canvas as [[[cx0 cx1] cy0] cy1]. destruct Hc as [Hcx Hcy].
    intros [Hox Hoy] Hb H. cbn [bx0 bx1 by0 by1] in Hox, Hoy.
    unfold py_div, Qeqb in H.
    destruct (Qeq_bool (gx1 - gx0) 0) eqn:Ew; [discriminate |].
    destruct (Qeq_bool (gy1 - gy0) 0) eqn:Eh; [discriminate |].
    cbn [rbind] in H. injection H as <-.
    apply Qeq_bool_false_neq in Ew, Eh.
    assert (HW : 0 < gx1 - gx0) by (apply Qle_lteq in Hox as [Hox | Hox]; [lra | exfalso; apply Ew; lra]).
    assert (HH : 0 < gy1 - gy0) by (apply Qle_lteq in Hoy as [Hoy | Hoy]; [lra | exfalso; apply Eh; lra]).
    set (sx := (cx1 - cx0) / (gx1 - gx0)). set (sy := (cy1 - cy0) / (gy1 - gy0)).
    assert (Hsx : 0 <= sx) by (apply div_nonneg; lra).
    assert (Hsy : 0 <= sy) by (apply div_nonneg; lra).
    set (s := pymin (pymin sx sy) 1).
    assert (Hs0 : 0 <= s) by (apply pymin_ge; [apply pymin_ge |]; lra).
    assert (Hs1 : s <= sx) by (unfold s; pose proof (pymin_le_l (pymin sx sy) 1); pose proof (pymin_le_l sx sy); lra).
    assert (Hs2 : s <= sy) by (unfold s; pose proof (pymin_le_l (pymin sx sy) 1); pose proof (pymin_le_r sx sy); lra).
    apply Forall_map, Forall_forall. intros o Ho.
    destruct (Hin o Ho) as (p & q & l & -> & Hpq).
    destruct (Hb p q Hpq) as (B1 & B2 & B3 & B4). unfold segment_bbox in B1, B2, B3, B4.
    cbn [bx0 bx1 by0 by1] in B1, B2, B3, B4.
    pose proof (pymin_le_l (fst p) (fst q)). pose proof (pymin_le_r (fst p) (fst q)).
    pose proof (pymax_ge_l (fst p) (fst q)). pose proof (pymax_ge_r (fst p) (fst q)).
    pose proof (pymin_le_l (snd p) (snd q)). pose proof (pymin_le_r (snd p) (snd q)).
    pose proof (pymax_ge_l (snd p) (snd q)). pose proof (pymax_ge_r (snd p) (snd q)).
    destruct (fit_coord cx0 (cx1 - cx0) gx0 (gx1 - gx0) s (fst p)) as [Px1 Px2]; try lra; try exact Hs1; try exact Hs2.
    destruct (fit_coord cx0 (cx1 - cx0) gx0 (gx1 - gx0) s (fst q)) as [Qx1 Qx2]; try lra; try exact Hs1; try exact Hs2.
    destruct (fit_coord cy0 (cy1 - cy0) gy0 (gy1 - gy0) s (snd p)) as [Py1 Py2]; try lra; try exact Hs1; try exact Hs2.
    destruct (fit_coord cy0 (cy1 - cy0) gy0 (gy1 - gy0) s (snd q)) as [Qy1 Qy2]; try lra; try exact Hs1; try exact Hs2.
    cbn [apply_transformation transform_attrs map get_bbox]. eexists. split; [reflexivity |].
    unfold bbox_inside, segment_bbox. cbn [bx0 bx1 by0 by1 fst snd].
    repeat split; [apply pymin_ge | apply pymax_le | apply pymin_ge | apply pymax_le]; lra.
Qed.


Lemma object_types_alias_kw fm k cls kw r o r' :
  dict_get (OBJECT_TYPES fm) k = Some cls -> cls kw r = Ok (o, r') -> ALIAS o = k.
Proof.
  intros Hk H. unfold OBJECT_TYPES in Hk. cbn [dict_get] in Hk.
  repeat match type of Hk with
  | (if String.eqb k ?s then _ else _) = _ =>
      destruct (String.eqb_spec k s) as [-> | ?]; [injection Hk as <- | ]
  end; try discriminate;
  unfold LineLow, OvalLow, RectangleObj, BarsObj, AxisObj, BarGraphObj, TriangleObj,
    PolygonObj, ArrowObj in H; peel H; reflexivity.
Qed.

Lemma repeatM_alias fm k cls n r l r' :
  dict_get (OBJECT_TYPES fm) k = Some cls -> repeatM n (cls []) r = Ok (l, r') ->
  map ALIAS l = repeat k n.
Proof.
  intro Hk. revert r l r'. induction n as [| n IH]; intros r l r' H.
  - injection H as <- _. reflexivity.
  - cbn [repeatM] in H. apply bind_ok in H as (o & r1 & Ho & H).
    apply bind_ok in H as (os & r2 & Hos & H). injection H as <- _.
    cbn [map repeat]. rewrite (object_types_alias_kw fm k cls [] r o r1 Hk Ho), (IH _ _ _ Hos).
    reflexivity.
Qed.

Lemma mapM_alias fm k cls ps r l r' :
  dict_get (OBJECT_TYPES fm) k = Some cls -> mapM cls ps r = Ok (l, r') ->
  map ALIAS l = repeat k (List.length ps).
Proof.
  intro Hk. revert r l r'. induction ps as [| kw ps IH]; intros r l r' H.
  - injection H as <- _. reflexivity.
  - cbn [mapM] in H. apply bind_ok in H as (o & r1 & Ho & H).
    apply bind_ok in H as (os & r2 & Hos & H). injection H as <- _.
    cbn [map repeat List.length]. rewrite (object_types_alias_kw fm k cls kw r o r1 Hk Ho), (IH _ _ _ Hos).
    reflexivity.
Qed.



Lemma choice_draws {A} (l : list A) r x r' :
  choice l r = Ok (x, r') -> draws r' = draws r /\ cursor r' = S (cursor r).
Proof.
  unfold choice, random_random. intro H. apply bind_ok in H as (u & r1 & Hu & H).
  injection Hu as <- <-. destruct (nth_error _ _); [| discriminate].
  injection H as _ <-. split; reflexivity.
Qed.

Lemma randint_ge (a b : Z) r n r' :
  0 <= draws r (cursor r) -> (a <= b)%Z -> randint a b r = Ok (n, r') -> (a <= n)%Z.
Proof.
  intros Hu Hab H. unfold randint, random_random in H. apply bind_ok in H as (u & r1 & Hu1 & H).
  injection Hu1 as <- <-.
  assert (Hf : (0 <= Qfloor (draws r (cursor r) * inject_Z (b - a + 1)))%Z).
  { change 0%Z with (Qfloor 0). apply Qfloor_resp_le.
    apply Qmult_le_0_compat; [exact Hu |]. change 0 with (inject_Z 0). rewrite <- Zle_Qle. lia. }
  remember (Qfloor (draws r (cursor r) * inject_Z (b - a + 1))) as f eqn:Ef.
  unfold ret in H. injection H as <- _. lia.
Qed.

Lemma create_scene_aliases fm p avoid canvas ap r scene r' :
  available_types fm avoid <> [] ->
  create_scene fm p avoid canvas ap r = Ok (scene, r') ->
  exists built r1 extras,
    build_scene_from_plan fm p r = Ok (built, r1) /\
    Forall (fun o => ~ In (ALIAS o) avoid) extras /\
    map ALIAS scene = map ALIAS (trim_scene (built ++ extras)).
Proof.
  intros Havail H. unfold create_scene in H.
  apply bind_ok in H as (s1 & r1' & Hp & H).
  unfold padded_scene in Hp.
  apply bind_ok in Hp as (built & r1 & Hb & Hp).
  apply bind_ok in Hp as (padded & r2 & Hpad & Hp).
  injection Hp as <- <-.
  apply bind_ok in H as (assigned & r3 & Hm & H).
  destruct (pad_scene_spec fm min_total _ built r1 padded r2 Havail ltac:(unfold min_total; lia) Hpad)
    as (extras & -> & Hall & _ & _).
  exists built, r1, extras. split; [exact Hb | split].
  - eapply Forall_impl; [| exact Hall].
    intros o Ho. exact (available_not_avoided fm avoid (ALIAS o) Ho).
  - rewrite <- (mapM_assign_alias fm _ _ _ _ Hm). destruct ap.
    + injection H as <- _. reflexivity.
    + unfold lift in H. destruct (adjust_scene fm assigned canvas) as [s' | e] eqn:Ea; [| discriminate].
      injection H as <- _. exact (adjust_scene_alias fm _ _ _ Ea).
Qed.

Lemma build_scene_aliases_aux fm p r objs r' :
  build_scene_from_plan fm p r = Ok (objs, r') -> map ALIAS objs = planned_aliases fm p.
Proof.
  revert r objs r'. induction p as [| [alias spec] rest IH]; intros r objs r' H.
  - injection H as <- _. reflexivity.
  - cbn [build_scene_from_plan] in H. apply bind_ok in H as (os & r1 & Hos & H).
    apply bind_ok in H as (others & r2 & Hoth & H). injection H as <- _.
    unfold planned_aliases. cbn [flat_map fst snd]. fold (planned_aliases fm rest).
    rewrite map_app, (IH _ _ _ Hoth). f_equal.
    destruct (dict_get (OBJECT_TYPES fm) alias) as [cls |] eqn:Ek.
    + destruct spec as [n | ps |]; cbn [plan_entry_count].
      * exact (repeatM_alias fm alias cls _ r os r1 Ek Hos).
      * exact (mapM_alias fm alias cls ps r os r1 Ek Hos).
      * injection Hos as <- _. reflexivity.
    + injection Hos as <- _. reflexivity.
Qed.

(** X13: when the draws lie in [[0, 1)], a run of [demo_question_object]
    that returns reports the requested answer with the question
    "Is there a t in the image?" for one of its five kinds [t], and the scene
    contains an object of kind [t] exactly when the answer is [true]. *)
Theorem demo_question_object_answer (fm : float_math) (answer : bool) (width height : Q) (r : rng)
    (scene : list plot_object) (question : string) (a : bool) (r' : rng)
    (Hr : draws_in_unit r)
    (H : demo_question_object fm answer width height r = Ok ((scene, question, a), r')) :
  a = answer /\
  exists t, In t question_object_types /\
    question = ("Is there a " ++ t ++ " in the image?") /\
    existsb (fun o => String.eqb (ALIAS o) t) scene = answer.
Proof.
  unfold demo_question_object in H. apply bind_ok in H as (t & r1 & Ht & H).
  destruct (choice_draws _ _ _ _ Ht) as [Hd1 Hc1].
  pose proof (choice_in _ _ _ _ Ht) as Htin. clear Ht.
  assert (Hav : forall avoid, incl avoid [t] -> available_types fm avoid <> []).
  { intros avoid Hinc Heq.
    assert (Hl : In "Polygon" (available_types fm avoid)).
    { unfold available_types. apply filter_In. split; [simpl; tauto |].
      apply negb_true_iff. apply Bool.not_true_iff_false. intro Hex.
      apply existsb_exists in Hex as (y & Hy & Hyq). apply String.eqb_eq in Hyq. subst y.
      apply Hinc in Hy. destruct Hy as [Hy | []].
      destruct Htin as [<- | [<- | [<- | [<- | [<- | []]]]]]; discriminate. }
    rewrite Heq in Hl. destruct Hl. }
  assert (Hk : exists cls, dict_get (OBJECT_TYPES fm) t = Some cls).
  { destruct Htin as [<- | [<- | [<- | [<- | [<- | []]]]]]; eexists; reflexivity. }
  destruct Hk as [cls Hk].
  apply bind_ok in H as (pl & r2 & Hpl & H).
  apply bind_ok in H as (sc & r3 & Hsc & H).
  destruct answer.
  - apply bind_ok in Hpl as (n & r4 & Hn & Hpl). injection Hpl as <- <-.
    assert (Hn1 : (1 <= n)%Z).
    { apply (randint_ge 1 2 r1 n r4); [| lia | exact Hn].
      rewrite Hd1. apply (proj1 (Hr _)). }
    apply bind_ok in H as (u & r5 & Hu & H). injection Hu as <- <-.
    unfold display_and_save_scene, ret in H. injection H as <- <- <- _.
    split; [reflexivity |]. exists t. split; [exact Htin | split; [reflexivity |]].
    destruct (create_scene_aliases fm _ _ _ _ _ _ _ (Hav [] (incl_nil_l _)) Hsc)
      as (built & r6 & extras & Hb & _ & Hal).
    apply build_scene_aliases_aux in Hb. unfold planned_aliases in Hb.
    cbn [flat_map fst snd plan_entry_count] in Hb. rewrite Hk, app_nil_r in Hb.
    destruct (Z.to_nat n) as [| m] eqn:Em; [lia |].
    destruct built as [| b0 built']; [discriminate |]. cbn [map repeat] in Hb. injection Hb as Hb0 _.
    unfold trim_scene, max_total in Hal. cbn [app firstn map] in Hal.
    destruct sc as [| s0 sc']; [discriminate |]. cbn [map] in Hal. injection Hal as Hs0 _.
    cbn [existsb]. rewrite Hs0, Hb0, String.eqb_refl. reflexivity.
  - injection Hpl as <- <-.
    destruct (create_scene_aliases fm _ _ _ _ _ _ _ (Hav [t] (incl_refl _)) Hsc)
      as (built & r6 & extras & Hb & Hex & Hal).
    cbn [build_scene_from_plan] in Hb. rewrite Hk in Hb. cbn in Hb.
    unfold bind, ret in Hb. cbn in Hb. injection Hb as <- _.
    assert (Hnone : existsb (fun o => String.eqb (ALIAS o) t) sc = false).
    { apply Bool.not_true_iff_false. intro Hx. apply existsb_exists in Hx as (o & Ho & Hot).
      apply String.eqb_eq in Hot.
      assert (Hin : In (ALIAS o) (map ALIAS (trim_scene ([] ++ extras)))).
      { rewrite <- Hal. apply in_map. exact Ho. }
      apply in_map_iff in Hin as (e & He & Hin). unfold trim_scene in Hin.
      assert (Hin' : In e extras) by (rewrite <- (firstn_skipn max_total extras); apply in_or_app; left; exact Hin).
      clear Hin. rename Hin' into Hin. rewrite Forall_forall in Hex. apply (Hex e Hin).
      rewrite He, Hot. left. reflexivity. }
    rewrite Hnone in H. apply bind_ok in H as (u & r5 & Hu & H). injection Hu as <- <-.
    unfold display_and_save_scene, ret in H. injection H as <- <- <- _.
    split; [reflexivity |]. exists t. split; [exact Htin | split; [reflexivity | exact Hnone]].
Qed.


Lemma pip_loop_no_crossing (P : Q -> Prop) px py prev vs inside :
  (forall y y', P y -> P y' -> Qltb py y = Qltb py y') ->
  Forall (fun v => P (snd v)) vs -> P (snd prev) ->
  pip_loop px py prev vs inside = Ok inside.
Proof.
  intros HP Hvs. revert prev. induction Hvs as [| [xi yi] vs Hv _ IH]; intros [xj yj] Hp; [reflexivity |].
  cbn [pip_loop]. cbn [snd] in Hv, Hp. rewrite (HP yi yj Hv Hp), xorb_nilpotent.
  apply IH. exact Hv.
Qed.

Lemma last_in_list {A} (l : list A) d : l <> [] -> In (last l d) l.
Proof.
  induction l as [| x l IH]; intro Hne; [contradiction |].
  destruct l as [| y l]; [left; reflexivity |].
  right. apply IH. discriminate.
Qed.

(** X14: [_point_in_polygon] answers [False] for a point strictly below all
    vertices, or on or above all of them (no edge crosses its horizontal). *)
Theorem point_in_polygon_outside_band (px py : Q) (vertices : list point)
    (Hband : Forall (fun v => py < snd v) vertices \/ Forall (fun v => snd v <= py) vertices) :
  _point_in_polygon px py vertices = Ok false.
Proof.
  unfold _point_in_polygon. destruct vertices as [| v vs]; [reflexivity |].
  assert (Hlast : In (last (v :: vs) (0, 0)) (v :: vs)) by (apply last_in_list; discriminate).
  destruct Hband as [Hb | Hb].
  - apply (pip_loop_no_crossing (fun y => py < y)); [| exact Hb |].
    + intros y y' Hy Hy'. apply Qltb_true in Hy, Hy'. rewrite Hy, Hy'. reflexivity.
    + rewrite Forall_forall in Hb. exact (Hb _ Hlast).
  - apply (pip_loop_no_crossing (fun y => y <= py)); [| exact Hb |].
    + intros y y' Hy Hy'. apply Qltb_false in Hy, Hy'. rewrite Hy, Hy'. reflexivity.
    + rewrite Forall_forall in Hb. exact (Hb _ Hlast).
Qed.

Lemma Qeq_bool_compat_l x x' y : x == x' -> Qeq_bool x y = Qeq_bool x' y.
Proof.
  intro Hx. destruct (Qeq_bool x y) eqn:E, (Qeq_bool x' y) eqn:E'; try reflexivity.
  - apply Qeq_bool_iff in E. apply Qeq_bool_neq in E'. exfalso. apply E'. rewrite <- Hx. exact E.
  - apply Qeq_bool_neq in E. apply Qeq_bool_iff in E'. exfalso. apply E. rewrite Hx. exact E'.
Qed.

Lemma Qltb_compat' x y y' : y == y' -> Qltb x y = Qltb x y'.
Proof.
  intro Hy. destruct (Qltb x y) eqn:E, (Qltb x y') eqn:E'; try reflexivity.
  - apply Qltb_true in E. apply Qltb_false in E'. lra.
  - apply Qltb_false in E. apply Qltb_true in E'. lra.
Qed.

(** X15: for the axis-aligned rectangle listed counter-clockwise from its
    lower left corner, [_point_in_polygon] answers [True] for a point
    strictly inside, except that a height of exactly [1e-9] makes its
    denominator [yj - yi + 1e-9] zero and the call raise
    [ZeroDivisionError]. *)
Theorem point_in_rectangle (x0 x1 y0 y1 px py : Q)
    (Hx : x0 < px /\ px < x1) (Hy : y0 < py /\ py < y1) :
  _point_in_polygon px py [(x0, y0); (x1, y0); (x1, y1); (x0, y1)] =
  if Qeqb (y1 - y0) (1 # 1000000000) then Err ZeroDivisionError else Ok true.
Proof.
  destruct Hx as [Hx0 Hx1], Hy as [Hy0 Hy1].
  assert (A0 : Qltb py y0 = false) by (apply Qltb_false; lra).
  assert (A1 : Qltb py y1 = true) by (apply Qltb_true; lra).
  unfold _point_in_polygon. cbn [last pip_loop]. rewrite A0, A1. cbn [xorb].
  unfold py_div, Qeqb.
  assert (D1 : Qeq_bool (y1 - y0 + (1 # 1000000000)) 0 = false).
  { apply Bool.not_true_iff_false. intro E. apply Qeq_bool_iff in E. lra. }
  rewrite D1. cbn [rbind].
  rewrite (Qltb_compat' px ((x0 - x0) * (py - y0) / (y1 - y0 + (1 # 1000000000)) + x0) x0)
    by (field; intro E; lra).
  assert (A2 : Qltb px x0 = false) by (apply Qltb_false; lra). rewrite A2.
  cbn [pip_loop]. rewrite ?A0, ?A1. cbn [xorb].
  rewrite (Qeq_bool_compat_l (y0 - y1 + (1 # 1000000000)) ((1 # 1000000000) - (y1 - y0)) 0) by ring.
  destruct (Qeq_bool (y1 - y0) (1 # 1000000000)) eqn:E.
  - apply Qeq_bool_iff in E.
    assert (D2 : Qeq_bool ((1 # 1000000000) - (y1 - y0)) 0 = true) by (apply Qeq_bool_iff; lra).
    rewrite D2. reflexivity.
  - apply Qeq_bool_neq in E.
    assert (D2 : Qeq_bool ((1 # 1000000000) - (y1 - y0)) 0 = false).
    { apply Bool.not_true_iff_false. intro E2. apply Qeq_bool_iff in E2. apply E. lra. }
    rewrite D2. cbn [rbind negb].
    rewrite (Qltb_compat' px ((x1 - x1) * (py - y1) / (y0 - y1 + (1 # 1000000000)) + x1) x1).
    + assert (A3 : Qltb px x1 = true) by (apply Qltb_true; lra). rewrite A3. cbn [negb pip_loop].
      rewrite ?A0, ?A1. reflexivity.
    + field. intro E3. apply E. lra.
Qed.

(** X6: when no width, height or length is negative, every bounding box
    [get_bbox] returns has its minimum at or below its maximum on both
    axes. *)
Theorem get_bbox_ordered (fm : float_math) (o : plot_object) (b : bbox)
    (Hd : dims_nonneg o = true) (Hb : get_bbox fm o = Ok b) :
  bx0 b <= bx1 b /\ by0 b <= by1 b.
Proof. exact (get_bbox_ordered_aux fm o b Hd Hb). Qed.

(** X12: the kinds of the objects [build_scene_from_plan] returns are the
    plan's aliases, in the plan's order, each repeated as many times as its
    entry asks for; entries with an unknown alias contribute nothing. *)
Theorem build_scene_aliases (fm : float_math) (p : plan) (r : rng) (objs : list plot_object) (r' : rng)
    (H : build_scene_from_plan fm p r = Ok (objs, r')) :
  map ALIAS objs = planned_aliases fm p.
Proof. exact (build_scene_aliases_aux fm p r objs r' H). Qed.

(** ** Witnesses of the further properties *)

Lemma get_bbox_ordered_witness :
  dims_nonneg big_oval = true /\
  get_bbox pymath big_oval = Ok (ok_or (0, 0, 0, 0) (get_bbox pymath big_oval)) /\
  bx0 (ok_or (0, 0, 0, 0) (get_bbox pymath big_oval)) <= bx1 (ok_or (0, 0, 0, 0) (get_bbox pymath big_oval)) /\
  by0 (ok_or (0, 0, 0, 0) (get_bbox pymath big_oval)) <= by1 (ok_or (0, 0, 0, 0) (get_bbox pymath big_oval)).
Proof.
  split; [reflexivity |]. split; [vm_compute; reflexivity |].
  exact (get_bbox_ordered pymath big_oval _ ltac:(reflexivity) ltac:(vm_compute; reflexivity)).
Defined.

Lemma adjust_scene_bbox_error_witness :
  In sideless_polygon [sideless_polygon] /\
  get_bbox pymath sideless_polygon = Err ZeroDivisionError /\
  exists e', adjust_scene pymath [sideless_polygon] unit_canvas = Err e'.
Proof.
  split; [left; reflexivity |]. split; [reflexivity |].
  exact (adjust_scene_bbox_error pymath [sideless_polygon] unit_canvas sideless_polygon ZeroDivisionError
           ltac:(left; reflexivity) ltac:(reflexivity)).
Defined.

Lemma adjust_scene_only_moves_points_witness :
  adjust_scene pymath [big_oval; vertical_line] unit_canvas = Ok fitted_scene /\
  map erase_points fitted_scene = map erase_points [big_oval; vertical_line].
Proof.
  split; [vm_compute; reflexivity |].
  exact (adjust_scene_only_moves_points pymath [big_oval; vertical_line] unit_canvas fitted_scene
           ltac:(vm_compute; reflexivity)).
Defined.

Lemma adjust_scene_zero_extent_witness :
  map_result (get_bbox pymath) [vertical_line] = Ok [segment_bbox (0, 0) (0, 10)] /\
  (adjust_scene pymath [vertical_line] unit_canvas = Err ZeroDivisionError <->
   bx1 (bbox_union (segment_bbox (0, 0) (0, 10)) []) - bx0 (bbox_union (segment_bbox (0, 0) (0, 10)) []) == 0 \/
   by1 (bbox_union (segment_bbox (0, 0) (0, 10)) []) - by0 (bbox_union (segment_bbox (0, 0) (0, 10)) []) == 0) /\
  (forall e, adjust_scene pymath [vertical_line] unit_canvas = Err e -> e = ZeroDivisionError).
Proof.
  split; [reflexivity |].
  exact (adjust_scene_zero_extent pymath [vertical_line] unit_canvas (segment_bbox (0, 0) (0, 10)) []
           ltac:(reflexivity)).
Defined.

Lemma adjust_scene_fits_lines_witness :
  adjust_scene pymath two_lines unit_canvas = Ok fitted_lines /\
  Forall (fun o => exists b, get_bbox pymath o = Ok b /\ bbox_inside b unit_canvas) fitted_lines.
Proof.
  split; [vm_compute; reflexivity |].
  exact (adjust_scene_fits_lines pymath two_lines unit_canvas fitted_lines
           ltac:(repeat constructor) ltac:(simpl; split; lra) ltac:(vm_compute; reflexivity)).
Defined.

Lemma build_scene_aliases_witness :
  build_scene_from_plan pymath scene_plan (rng_of_list []) = Ok (run_value [] plan_run, run_state plan_run) /\
  map ALIAS (run_value [] plan_run) = planned_aliases pymath scene_plan.
Proof.
  split; [vm_compute; reflexivity |].
  exact (build_scene_aliases pymath scene_plan (rng_of_list []) (run_value [] plan_run) (run_state plan_run)
           ltac:(vm_compute; reflexivity)).
Defined.

Lemma demo_question_object_answer_witness :
  draws_in_unit (rng_of_list []) /\
  demo_question_object pymath true 100 100 (rng_of_list []) =
    Ok ((fst (fst demo_object_out), snd (fst demo_object_out), snd demo_object_out),
        run_state demo_object_run) /\
  snd demo_object_out = true /\
  exists t, In t question_object_types /\
    snd (fst demo_object_out) = ("Is there a " ++ t ++ " in the image?") /\
    existsb (fun o => String.eqb (ALIAS o) t) (fst (fst demo_object_out)) = true.
Proof.
  assert (Hr : draws_in_unit (rng_of_list [])) by (intro k; destruct k; simpl; split; lra).
  split; [exact Hr |]. split; [vm_compute; reflexivity |].
  exact (demo_question_object_answer pymath true 100 100 (rng_of_list [])
           (fst (fst demo_object_out)) (snd (fst demo_object_out)) (snd demo_object_out)
           (run_state demo_object_run) Hr ltac:(vm_compute; reflexivity)).
Defined.

Lemma point_in_polygon_outside_band_witness :
  Forall (fun v => -1 < snd v) [(0, 0); (10, 0); (5, 10)] /\
  _point_in_polygon 5 (-1) [(0, 0); (10, 0); (5, 10)] = Ok false.
Proof.
  assert (Hb : Forall (fun v : point => -1 < snd v) [(0, 0); (10, 0); (5, 10)])
    by (repeat constructor; simpl; lra).
  split; [exact Hb |].
  exact (point_in_polygon_outside_band 5 (-1) [(0, 0); (10, 0); (5, 10)] (or_introl Hb)).
Defined.

Lemma point_in_rectangle_witness :
  _point_in_polygon 5 5 [(0, 0); (10, 0); (10, 10); (0, 10)] = Ok true.
Proof.
  exact (point_in_rectangle 0 10 0 10 5 5 ltac:(split; lra) ltac:(split; lra)).
Defined.
